(** * fpl-app: squad store, point prediction and transfer suggestions

    A shallow embedding of
      - [src/store/teamStore.ts]                         (Module [TeamStore]),
      - [src/lib/predictions.ts]                         (Module [Predictions]),
      - [src/components/transfers/TransferPlanner.tsx]   (Module [TransferPlanner]).

    Conventions.  Numbers that the statistics API delivers as JSON integers
    (ids, prices in tenths, minutes, strengths, difficulty ratings) are [Z].
    Numbers that the program computes with fractions (scores, ratios, gains)
    are exact rationals [Q], compared with [==]; the binary rounding of the
    JavaScript number type is not modelled.  [null]/[undefined] is [None]. *)

From Stdlib Require Import ZArith QArith Qminmax Qround Lqa Lia List Sorted.
From Stdlib Require Import Ascii String.
From stdpp Require Import base option list gmap strings pretty sorting.

Local Open Scope Z_scope.

(** ** Data model ([src/types/fpl.ts]) *)

(** [Player.status]: "a" | "d" | "i" | "s" | "u". *)
Inductive Status := StA | StD | StI | StS | StU.

#[global] Instance Status_eq_dec : EqDecision Status.
Proof. solve_decision. Defined.

Module Player.
Record t := mk {
  id : Z;
  element_type : Z;                         (* 1=GK, 2=DEF, 3=MID, 4=FWD *)
  team : Z;
  status : Status;
  now_cost : Z;                             (* price in tenths *)
  points_per_game : string;
  form : string;
  chance_of_playing_this_round : option Z;
  minutes : Z
}.
End Player.

Module Team.
Record t := mk {
  id : Z;
  strength_attack_home : Z;
  strength_attack_away : Z;
  strength_defence_home : Z;
  strength_defence_away : Z
}.
End Team.

Module Fixture.
Record t := mk {
  team_a : Z;
  team_h : Z;
  team_h_difficulty : Z;
  team_a_difficulty : Z
}.
End Fixture.

Module PlayerHistory.
Record t := mk { total_points : Z }.
End PlayerHistory.

Inductive Formation := F343 | F352 | F433 | F442 | F451 | F532 | F541.

(** [xs.reduce((sum, p) => sum + p.now_cost, 0)] *)
Definition sumCost (ps : list Player.t) : Z :=
  foldl (fun sum p => sum + Player.now_cost p) 0 ps.

(** ** The squad store ([src/store/teamStore.ts]) *)

Module TeamStore.

Record TeamState := mkState {
  teamId : option Z;
  teamName : string;
  managerName : string;
  players : list Player.t;
  formation : Formation;
  budget : Z;
  teamValue : Z;
  captain : option Z;
  viceCaptain : option Z;
  isLoading : bool;
  error : option string
}.

Definition initialState : TeamState :=
  {| teamId := None; teamName := ""; managerName := ""; players := [];
     formation := F343; budget := 1000; teamValue := 0;
     captain := None; viceCaptain := None; isLoading := false; error := None |}.

(** [set({ error: e })]: a partial update, every other field is kept. *)
Definition set_error (e : option string) (s : TeamState) : TeamState :=
  {| teamId := teamId s; teamName := teamName s; managerName := managerName s;
     players := players s; formation := formation s; budget := budget s;
     teamValue := teamValue s; captain := captain s;
     viceCaptain := viceCaptain s; isLoading := isLoading s; error := e |}.

(** [set({ players, teamValue, error: null })] *)
Definition set_squad (ps : list Player.t) (v : Z) (s : TeamState) : TeamState :=
  {| teamId := teamId s; teamName := teamName s; managerName := managerName s;
     players := ps; formation := formation s; budget := budget s;
     teamValue := v; captain := captain s;
     viceCaptain := viceCaptain s; isLoading := isLoading s; error := None |}.

(** [set({ captain, viceCaptain, error: null })] *)
Definition set_armbands (c v : option Z) (s : TeamState) : TeamState :=
  {| teamId := teamId s; teamName := teamName s; managerName := managerName s;
     players := players s; formation := formation s; budget := budget s;
     teamValue := teamValue s; captain := c;
     viceCaptain := v; isLoading := isLoading s; error := None |}.

(** The result object of [canAddPlayer]: [{ valid, reason? }]. *)
Record Validation := mkValidation { valid : bool; reason : option string }.

Definition getPositionCount (s : TeamState) (elementType : Z) : Z :=
  Z.of_nat (length (filter (fun p => Player.element_type p = elementType) (players s))).

Definition getTeamPlayerCount (s : TeamState) (teamId : Z) : Z :=
  Z.of_nat (length (filter (fun p => Player.team p = teamId) (players s))).

(** [fplApi.getPositionName] ([src/lib/fpl-api.ts]) *)
Definition getPositionName (elementType : Z) : string :=
  if elementType =? 1 then "GK"
  else if elementType =? 2 then "DEF"
  else if elementType =? 3 then "MID"
  else if elementType =? 4 then "FWD"
  else "UNKNOWN".

(** The object literal [positionLimits]; a missing key reads [undefined]. *)
Definition positionLimits (elementType : Z) : option Z :=
  if elementType =? 1 then Some 2
  else if elementType =? 2 then Some 5
  else if elementType =? 3 then Some 5
  else if elementType =? 4 then Some 3
  else None.

(** [n >= lim] where [lim] may be [undefined]: the comparison is then false. *)
Definition ge_limit (n : Z) (lim : option Z) : bool :=
  match lim with
  | Some l => l <=? n
  | None => false
  end.

Definition show_limit (lim : option Z) : string :=
  match lim with
  | Some l => pretty l
  | None => "undefined"
  end.

Definition canAddPlayer (s : TeamState) (player : Player.t) : Validation :=
  if 15 <=? Z.of_nat (length (players s)) then
    mkValidation false (Some "Squad is full (15 players maximum)")
  else if existsb (fun p => Player.id p =? Player.id player) (players s) then
    mkValidation false (Some "Player already in team")
  else
    let positionCount := getPositionCount s (Player.element_type player) in
    if ge_limit positionCount (positionLimits (Player.element_type player)) then
      let positionName := getPositionName (Player.element_type player) in
      mkValidation false
        (Some ("Maximum " +:+ show_limit (positionLimits (Player.element_type player))
               +:+ " " +:+ positionName +:+ " allowed"))
    else
      let teamPlayerCount := getTeamPlayerCount s (Player.team player) in
      if 3 <=? teamPlayerCount then
        mkValidation false (Some "Maximum 3 players from same team allowed")
      else
        let remainingBudget := budget s + teamValue s in
        let newTeamValue := teamValue s + Player.now_cost player in
        if remainingBudget <? newTeamValue then
          mkValidation false (Some "Insufficient budget")
        else mkValidation true None.

Definition addPlayer (s : TeamState) (player : Player.t) : TeamState :=
  let validation := canAddPlayer s player in
  if negb (valid validation) then set_error (reason validation) s
  else
    let newPlayers := players s ++ [player] in
    let newTeamValue := sumCost newPlayers in
    set_squad newPlayers newTeamValue s.

Definition clear_if (playerId : Z) (o : option Z) : option Z :=
  match o with
  | Some c => if c =? playerId then None else Some c
  | None => None
  end.

Definition removePlayer (s : TeamState) (playerId : Z) : TeamState :=
  let newPlayers := filter (fun p => Player.id p <> playerId) (players s) in
  let newTeamValue := sumCost newPlayers in
  set_armbands (clear_if playerId (captain s)) (clear_if playerId (viceCaptain s))
    (set_squad newPlayers newTeamValue s).

(** [state.captain === playerId] with [captain : number | null]. *)
Definition is_id (o : option Z) (playerId : Z) : bool :=
  match o with
  | Some c => c =? playerId
  | None => false
  end.

Definition setCaptain (s : TeamState) (playerId : Z) : TeamState :=
  match find (fun p => Player.id p =? playerId) (players s) with
  | None => set_error (Some "Player not in team") s
  | Some _ =>
      set_armbands (Some playerId) (clear_if playerId (viceCaptain s)) s
  end.

Definition setViceCaptain (s : TeamState) (playerId : Z) : TeamState :=
  match find (fun p => Player.id p =? playerId) (players s) with
  | None => set_error (Some "Player not in team") s
  | Some _ =>
      if is_id (captain s) playerId then
        set_error (Some "Captain cannot be vice-captain") s
      else set_armbands (captain s) (Some playerId) s
  end.

(** [set({ ...initialState })]: every field of the state is overwritten. *)
Definition clearTeam (s : TeamState) : TeamState := initialState.

Definition getRemainingBudget (s : TeamState) : Z :=
  budget s + (1000 - teamValue s).

(** The synchronous mutations of the store, as a labelled transition system. *)
Inductive Action :=
| AddPlayer (player : Player.t)
| RemovePlayer (playerId : Z)
| SetCaptain (playerId : Z)
| SetViceCaptain (playerId : Z)
| ClearTeam.

Definition step (s : TeamState) (a : Action) : TeamState :=
  match a with
  | AddPlayer p => addPlayer s p
  | RemovePlayer i => removePlayer s i
  | SetCaptain i => setCaptain s i
  | SetViceCaptain i => setViceCaptain s i
  | ClearTeam => clearTeam s
  end.

Definition run (acts : list Action) : TeamState := foldl step initialState acts.

End TeamStore.

(** ** JavaScript number helpers *)

Module JS.

Local Open Scope Q_scope.

Definition Qltb (x y : Q) : bool := negb (Qle_bool y x).

(** [Math.round]: nearest integer, halves go up. *)
Definition round (x : Q) : Z := Qfloor (x + (1 # 2)).

(** [Math.min] and [Math.max] on two numbers are [Qmin] and [Qmax]. *)

Definition digit_of (c : ascii) : option Z :=
  let n := Z.of_N (N_of_ascii c) in
  if ((48 <=? n) && (n <=? 57))%Z then Some (n - 48)%Z else None.

Definition is_space (c : ascii) : bool :=
  let n := N_of_ascii c in
  ((9 <=? n) && (n <=? 13) || (n =? 32))%N.

Fixpoint skip_spaces (s : string) : string :=
  match s with
  | String c r => if is_space c then skip_spaces r else s
  | EmptyString => s
  end.

(** Reads a run of decimal digits: its value, its length, and the rest. *)
Fixpoint read_digits (s : string) (acc : Z) (n : nat) : Z * nat * string :=
  match s with
  | String c r =>
      match digit_of c with
      | Some d => read_digits r (10 * acc + d)%Z (S n)
      | None => (acc, n, s)
      end
  | EmptyString => (acc, n, s)
  end.

Definition read_sign (s : string) : Z * string :=
  match s with
  | String "-" r => ((-1)%Z, r)
  | String "+" r => (1%Z, r)
  | _ => (1%Z, s)
  end.

Definition read_exponent (s : string) : Z :=
  match s with
  | String c r =>
      if (Ascii.eqb c "e" || Ascii.eqb c "E")%bool then
        let '(sg, r1) := read_sign r in
        let '(e, n, _) := read_digits r1 0%Z 0%nat in
        match n with
        | O => 0%Z
        | S _ => (sg * e)%Z
        end
      else 0%Z
  | EmptyString => 0%Z
  end.

(** [parseFloat] on the longest prefix that is a decimal literal
    (leading blanks, sign, digits, fraction, exponent); [None] is [NaN].
    The literal [Infinity] has no rational value and is outside the model. *)
Definition parseFloat (s : string) : option Q :=
  let '(sg, s1) := read_sign (skip_spaces s) in
  let '(ip, ni, s2) := read_digits s1 0%Z 0%nat in
  let '(fp, nf, s3) :=
    match s2 with
    | String "." r => read_digits r 0%Z 0%nat
    | _ => (0%Z, 0%nat, s2)
    end in
  match (ni + nf)%nat with
  | O => None
  | S _ =>
      let mantissa := inject_Z ip + inject_Z fp / inject_Z (10 ^ Z.of_nat nf) in
      Some (inject_Z sg * mantissa * Qpower 10 (read_exponent s3))
  end.

(** [x || 0] for a number [x]: [NaN] (and zero) give [0]. *)
Definition or_zero (x : option Q) : Q :=
  match x with
  | Some q => q
  | None => 0
  end.

End JS.

(** ** Point prediction ([src/lib/predictions.ts]) *)

Module PredictionFactors.
Record t := mk {
  form : Q;
  fixtureDifficulty : Q;
  homeAway : Q;
  minutesCertainty : Q
}.
End PredictionFactors.

Inductive Confidence := HIGH | MEDIUM | LOW.
Inductive Venue := home | away.

Module Reasoning.
Record t := mk {
  form : Q;
  fixtureDifficulty : Q;
  homeAway : Venue;
  minutesCertainty : Q
}.
End Reasoning.

Module PlayerPrediction.
Record t := mk {
  playerId : Z;
  predictedPoints : Z;
  confidence : Confidence;
  reasoning : Reasoning.t
}.
End PlayerPrediction.

Module Predictions.

Local Open Scope Q_scope.

Module WEIGHTS.
Definition form : Q := 4 # 10.
Definition fixtureDifficulty : Q := 3 # 10.
Definition homeAway : Q := 1 # 10.
Definition minutesCertainty : Q := 2 # 10.
End WEIGHTS.

(** [history.slice(-5)] *)
Definition last5 {A} (l : list A) : list A := drop (length l - 5) l.

Definition calculateFormScore (player : Player.t)
    (history : option (list PlayerHistory.t)) : Q :=
  let formValue := JS.or_zero (JS.parseFloat (Player.form player)) in
  match history with
  | Some ((_ :: _) as h) =>
      let last5Games := last5 h in
      let avgPoints :=
        inject_Z (foldl (fun sum g => (sum + PlayerHistory.total_points g)%Z) 0%Z last5Games)
        / inject_Z (Z.of_nat (length last5Games)) in
      Qmin avgPoints 10
  | _ => Qmin (formValue * 2) 10
  end.

Definition findTeam (teams : list Team.t) (teamId : Z) : option Team.t :=
  find (fun t => (Team.id t =? teamId)%Z) teams.

Definition calculateFixtureDifficultyScore (player : Player.t)
    (fixture : option Fixture.t) (teams : list Team.t) : Q :=
  match fixture with
  | None => 5
  | Some fixture =>
      match findTeam teams (Player.team player) with
      | None => 5
      | Some playerTeam =>
          let isHome := (Fixture.team_h fixture =? Player.team player)%Z in
          let difficulty :=
            if isHome then Fixture.team_h_difficulty fixture
            else Fixture.team_a_difficulty fixture in
          let baseScore := inject_Z (11 - difficulty * 2) in
          Qmax 0 (Qmin baseScore 10)
      end
  end.

Definition calculateHomeAwayScore (player : Player.t)
    (fixture : option Fixture.t) (teams : list Team.t) : Q :=
  match fixture with
  | None => 5
  | Some fixture =>
      let isHome := (Fixture.team_h fixture =? Player.team player)%Z in
      match findTeam teams (Player.team player) with
      | None => 5
      | Some playerTeam =>
          if ((Player.element_type player =? 1) || (Player.element_type player =? 2))%Z
          then
            let strength :=
              if isHome then Team.strength_defence_home playerTeam
              else Team.strength_defence_away playerTeam in
            (inject_Z strength / 140) * 10
          else
            let strength :=
              if isHome then Team.strength_attack_home playerTeam
              else Team.strength_attack_away playerTeam in
            (inject_Z strength / 140) * 10
      end
  end.

Definition calculateMinutesCertaintyScore (player : Player.t) : Q :=
  let score := 5 in
  let st := Player.status player in
  if bool_decide (st <> StA) && (bool_decide (st = StI) || bool_decide (st = StS))
  then 0
  else
    let score := if bool_decide (st <> StA) then score - 3 else score in
    match Player.chance_of_playing_this_round player with
    | Some 0%Z => 0
    | chance =>
        let score :=
          match chance with
          | Some c =>
              let score := if (c <? 50)%Z then score - 2 else score in
              if (c <? 75)%Z then score - 1 else score
          | None => score
          end in
        let totalMinutes := Player.minutes player in
        let possibleMinutes := (90 * 20)%Z in
        let minutesRatio := inject_Z totalMinutes / inject_Z possibleMinutes in
        let score :=
          if JS.Qltb (8 # 10) minutesRatio then score + 3
          else if JS.Qltb (6 # 10) minutesRatio then score + 1
          else if JS.Qltb minutesRatio (3 # 10) then score - 2
          else score in
        Qmax 0 (Qmin score 10)
    end.

Definition calculateConfidence (factors : PredictionFactors.t) : Confidence :=
  let minutesCertainty := PredictionFactors.minutesCertainty factors in
  let form := PredictionFactors.form factors in
  let fixtureDifficulty := PredictionFactors.fixtureDifficulty factors in
  if Qle_bool 7 minutesCertainty && Qle_bool 5 form && Qle_bool 6 fixtureDifficulty
  then HIGH
  else if JS.Qltb minutesCertainty 4 || JS.Qltb form 3 || JS.Qltb fixtureDifficulty 3
  then LOW
  else MEDIUM.

(** The local [factors] object of [predictPlayerPoints]. *)
Definition predictionFactors (player : Player.t) (nextFixture : option Fixture.t)
    (teams : list Team.t) (history : option (list PlayerHistory.t))
    : PredictionFactors.t :=
  let formScore := calculateFormScore player history in
  let fixtureScore := calculateFixtureDifficultyScore player nextFixture teams in
  let homeAwayScore := calculateHomeAwayScore player nextFixture teams in
  let minutesScore := calculateMinutesCertaintyScore player in
  PredictionFactors.mk formScore fixtureScore homeAwayScore minutesScore.

Definition predictPlayerPoints (player : Player.t) (nextFixture : option Fixture.t)
    (teams : list Team.t) (history : option (list PlayerHistory.t))
    : PlayerPrediction.t :=
  let factors := predictionFactors player nextFixture teams history in
  let formScore := PredictionFactors.form factors in
  let fixtureScore := PredictionFactors.fixtureDifficulty factors in
  let homeAwayScore := PredictionFactors.homeAway factors in
  let minutesScore := PredictionFactors.minutesCertainty factors in
  let weightedScore :=
    formScore * WEIGHTS.form +
    fixtureScore * WEIGHTS.fixtureDifficulty +
    homeAwayScore * WEIGHTS.homeAway +
    minutesScore * WEIGHTS.minutesCertainty in
  let predictedPoints := JS.round (weightedScore * (15 # 10)) in
  let confidence := calculateConfidence factors in
  PlayerPrediction.mk (Player.id player) predictedPoints confidence
    (Reasoning.mk formScore fixtureScore
       match nextFixture with
       | Some f => if (Fixture.team_h f =? Player.team player)%Z then home else away
       | None => home
       end
       minutesScore).

End Predictions.

(** ** Transfer suggestions ([src/components/transfers/TransferPlanner.tsx]) *)

Module Metrics.
Record t := mk { base : Q; mins : Q; fixt : Q; form : Q }.
End Metrics.

Module TransferSuggestion.
Record t := mk {
  playerOut : Player.t;
  playerIn : Player.t;
  expectedGain : Q;
  metrics : Metrics.t
}.
End TransferSuggestion.

Module TransferPlanner.

Local Open Scope Q_scope.

(** [new Set(teamPlayers.map(p => p.id))] *)
Definition teamPlayerIds (teamPlayers : list Player.t) : gset Z :=
  list_to_set (map Player.id teamPlayers).

(** [teamPlayers.reduce((acc, p) => { acc[p.team] = (acc[p.team] || 0) + 1; return acc }, {})] *)
Definition teamTeams (teamPlayers : list Player.t) : gmap Z Z :=
  foldl (fun acc p =>
           <[Player.team p := (default 0 (acc !! Player.team p) + 1)%Z]> acc)
        ∅ teamPlayers.

(** The predicate of [allPlayers.filter(...)] for one outgoing player. *)
Definition isCandidate (ids : gset Z) (counts : gmap Z Z) (budget : Z)
    (playerOut p : Player.t) : bool :=
  let availableBudget := (budget + Player.now_cost playerOut)%Z in
  if negb (Player.element_type p =? Player.element_type playerOut)%Z then false
  else if bool_decide (Player.id p ∈ ids) then false
  else if (availableBudget <? Player.now_cost p)%Z then false
  else
    let sameTeamCount := default 0%Z (counts !! Player.team p) in
    if negb (Player.team p =? Player.team playerOut)%Z && (3 <=? sameTeamCount)%Z
    then false
    else if bool_decide (Player.status p <> StA) && bool_decide (Player.status p <> StD)
    then false
    else true.

(** The body of [candidates.forEach(playerIn => ...)] up to the test
    [expectedGain > 5]: the suggestion that would be pushed. *)
Definition scorePair (playerOut playerIn : Player.t) : TransferSuggestion.t :=
  let formDiff :=
    JS.or_zero (JS.parseFloat (Player.form playerIn))
    - JS.or_zero (JS.parseFloat (Player.form playerOut)) in
  let ppgDiff :=
    JS.or_zero (JS.parseFloat (Player.points_per_game playerIn))
    - JS.or_zero (JS.parseFloat (Player.points_per_game playerOut)) in
  let baseScore := Qmin 100 (Qmax 0 (50 + ppgDiff * 10)) in
  let minsScore := if bool_decide (Player.status playerIn = StA) then 80 else 40 in
  let fixtScore := 70 in
  let formScore := Qmin 100 (Qmax 0 (50 + formDiff * 20)) in
  let expectedGain :=
    (baseScore * (3 # 10) + minsScore * (2 # 10) + fixtScore * (2 # 10)
     + formScore * (3 # 10)) / 10 in
  TransferSuggestion.mk playerOut playerIn expectedGain
    (Metrics.mk baseScore minsScore fixtScore formScore).

(** One round of the outer [teamPlayers.forEach]: what it pushes on [results]. *)
Definition pushesFor (ids : gset Z) (counts : gmap Z Z) (budget : Z)
    (allPlayers : list Player.t) (playerOut : Player.t)
    : list TransferSuggestion.t :=
  let candidates :=
    take 100 (List.filter (isCandidate ids counts budget playerOut) allPlayers) in
  List.filter (fun sg => JS.Qltb 5 (TransferSuggestion.expectedGain sg))
    (map (scorePair playerOut) candidates).

(** [Array.prototype.sort] with a comparator is a stable sort: [a] stays in
    front of [b] unless [cmp(a, b) > 0].  Insertion from the right computes
    that order. *)
Fixpoint sort_insert {A} (cmp : A -> A -> Q) (x : A) (l : list A) : list A :=
  match l with
  | [] => [x]
  | y :: r => if JS.Qltb 0 (cmp x y) then y :: sort_insert cmp x r else x :: l
  end.

Definition sort {A} (cmp : A -> A -> Q) (l : list A) : list A :=
  foldr (sort_insert cmp) [] l.

Definition byGainDesc (a b : TransferSuggestion.t) : Q :=
  TransferSuggestion.expectedGain b - TransferSuggestion.expectedGain a.

Definition suggestions (teamPlayers allPlayers : list Player.t) (budget : Z)
    : list TransferSuggestion.t :=
  let ids := teamPlayerIds teamPlayers in
  let counts := teamTeams teamPlayers in
  let results :=
    flat_map (pushesFor ids counts budget allPlayers) teamPlayers in
  take 9 (sort byGainDesc results).

End TransferPlanner.

(** ** The squad rules as the specification words them *)

Module SquadRules.

Import TeamStore.

Inductive Position := GK | DEF | MID | FWD.

Definition position_of (elementType : Z) : option Position :=
  match elementType with
  | 1 => Some GK
  | 2 => Some DEF
  | 3 => Some MID
  | 4 => Some FWD
  | _ => None
  end.

(** Position quota 2 / 5 / 5 / 3. *)
Definition quota (pos : Position) : nat :=
  match pos with
  | GK => 2
  | DEF => 5
  | MID => 5
  | FWD => 3
  end%nat.

(** Sum of all member prices. *)
Definition totalPrice (ps : list Player.t) : Z :=
  foldr (fun p acc => Player.now_cost p + acc) 0 ps.

Definition member (s : TeamState) (playerId : Z) : Prop :=
  exists p, p ∈ players s /\ Player.id p = playerId.

Definition countWhere (P : Player.t -> Prop) `{forall p, Decision (P p)}
    (ps : list Player.t) : nat :=
  length (filter P ps).

Definition squadFull (s : TeamState) : Prop := (15 <= length (players s))%nat.

Definition quotaMet (s : TeamState) (p : Player.t) : Prop :=
  exists pos, position_of (Player.element_type p) = Some pos /\
    (quota pos <=
     countWhere (fun q => Player.element_type q = Player.element_type p) (players s))%nat.

Definition clubFull (s : TeamState) (p : Player.t) : Prop :=
  (3 < countWhere (fun q => Player.team q = Player.team p) (players s) + 1)%nat.

Definition overBudget (s : TeamState) (p : Player.t) : Prop :=
  budget s + teamValue s < teamValue s + Player.now_cost p.

(** The four rejections that do not look at money. *)
Definition membershipRejects (s : TeamState) (p : Player.t) : Prop :=
  squadFull s \/ member s (Player.id p) \/ quotaMet s p \/ clubFull s p.

Definition rejects (s : TeamState) (p : Player.t) : Prop :=
  membershipRejects s p \/ overBudget s p.

(** Fields that no squad mutation touches. *)
Definition sameProfile (s s' : TeamState) : Prop :=
  teamId s' = teamId s /\ teamName s' = teamName s /\
  managerName s' = managerName s /\ formation s' = formation s /\
  budget s' = budget s /\ isLoading s' = isLoading s.

(** Captaincy invariant: each armband, when set, is worn by a squad member,
    and the two armbands are on different players. *)
Definition armbandsOk (s : TeamState) : Prop :=
  (forall c, captain s = Some c -> member s c) /\
  (forall v, viceCaptain s = Some v -> member s v) /\
  (forall c v, captain s = Some c -> viceCaptain s = Some v -> c <> v).

(** The state [s] with another squad value. *)
Definition withTeamValue (v : Z) (s : TeamState) : TeamState :=
  {| teamId := teamId s; teamName := teamName s; managerName := managerName s;
     players := players s; formation := formation s; budget := budget s;
     teamValue := v; captain := captain s;
     viceCaptain := viceCaptain s; isLoading := isLoading s; error := error s |}.

End SquadRules.

(** ** The scoring formulas: as the specification words them, and as amended *)

Module ScoringRules.

Local Open Scope Q_scope.

(** [clamp(lo, hi, x)] *)
Definition clamp (lo hi x : Q) : Q :=
  if JS.Qltb x lo then lo else if JS.Qltb hi x then hi else x.

Definition inRange (lo hi x : Q) : Prop := lo <= x /\ x <= hi.

(** Minutes certainty: the penalty for a status other than available. *)
Definition statusPenalty (st : Status) : Q :=
  if bool_decide (st = StA) then 0 else -3.

(** The chance-of-playing penalties as the amended claim has them: they
    accumulate, a chance below 50 costs the 2 and the 1, that is 3. *)
Definition chancePenalty (chance : option Z) : Q :=
  match chance with
  | None => 0
  | Some c =>
      (if (c <? 50)%Z then -2 else 0) + (if (c <? 75)%Z then -1 else 0)
  end.

(** The assumed ceiling: 20 matches of 90 minutes. *)
Definition possibleMinutes : Z := 20 * 90.

(** The minutes adjustments as alternatives: +3 above 80% of the ceiling,
    else +1 above 60%, else -2 below 30%. *)
Definition minutesAdjustment (minutes : Z) : Q :=
  if (80 * possibleMinutes <? 100 * minutes)%Z then 3
  else if (60 * possibleMinutes <? 100 * minutes)%Z then 1
  else if (100 * minutes <? 30 * possibleMinutes)%Z then -2
  else 0.

(** The amended minutes certainty: accumulating chance penalties,
    alternative minutes adjustments. *)
Definition minutesCertainty (p : Player.t) : Q :=
  if bool_decide (Player.status p = StI \/ Player.status p = StS) then 0
  else if bool_decide (Player.chance_of_playing_this_round p = Some 0%Z) then 0
  else
    clamp 0 10
      (5 + statusPenalty (Player.status p)
         + chancePenalty (Player.chance_of_playing_this_round p)
         + minutesAdjustment (Player.minutes p)).

(** The specification lists the chance thresholds and the minutes thresholds
    in the same way, "(0% -> 0, <50% -> -2, <75% -> -1)" and "(+3 if >80%,
    +1 if >60%, -2 if <30%)".  Read as alternatives, the first case of a list
    that applies is the one that counts. *)
Definition firstChancePenalty (chance : option Z) : Q :=
  match chance with
  | None => 0
  | Some c => if (c <? 50)%Z then -2 else if (c <? 75)%Z then -1 else 0
  end.

(** Read as accumulating, every case of a list that applies counts. *)
Definition everyMinutesAdjustment (minutes : Z) : Q :=
  (if (80 * possibleMinutes <? 100 * minutes)%Z then 3 else 0)
  + (if (60 * possibleMinutes <? 100 * minutes)%Z then 1 else 0)
  + (if (100 * minutes <? 30 * possibleMinutes)%Z then -2 else 0).

(** The minutes certainty of the claim for a reading of its two lists. *)
Definition minutesCertaintyBy (chanceRule : option Z -> Q) (minutesRule : Z -> Q)
    (p : Player.t) : Q :=
  if bool_decide (Player.status p = StI \/ Player.status p = StS) then 0
  else if bool_decide (Player.chance_of_playing_this_round p = Some 0%Z) then 0
  else
    clamp 0 10
      (5 + statusPenalty (Player.status p)
         + chanceRule (Player.chance_of_playing_this_round p)
         + minutesRule (Player.minutes p)).

(** The claim with both lists read as alternatives ... *)
Definition claimedMinutesCertainty : Player.t -> Q :=
  minutesCertaintyBy firstChancePenalty minutesAdjustment.

(** ... and with both lists read as accumulating. *)
Definition stackedMinutesCertainty : Player.t -> Q :=
  minutesCertaintyBy chancePenalty everyMinutesAdjustment.

(** [round(1.5 * (0.4 form + 0.3 fixture + 0.1 homeAway + 0.2 minutes))] *)
Definition predictedPoints (f : PredictionFactors.t) : Z :=
  JS.round ((15 # 10) *
            ((4 # 10) * PredictionFactors.form f
             + (3 # 10) * PredictionFactors.fixtureDifficulty f
             + (1 # 10) * PredictionFactors.homeAway f
             + (2 # 10) * PredictionFactors.minutesCertainty f)).

(** The numeric value of the strings [form] and [points_per_game]. *)
Definition formOf (p : Player.t) : Q := JS.or_zero (JS.parseFloat (Player.form p)).
Definition ppgOf (p : Player.t) : Q :=
  JS.or_zero (JS.parseFloat (Player.points_per_game p)).

Definition gain : TransferSuggestion.t -> Q := TransferSuggestion.expectedGain.

(** Strictly descending, and descending with ties allowed. *)
Definition strictlyDescending (l : list TransferSuggestion.t) : Prop :=
  Sorted (fun a b => gain b < gain a) l.

Definition descending (l : list TransferSuggestion.t) : Prop :=
  StronglySorted (fun a b => gain b <= gain a) l.

(** The scores of one out/in pair, as the specification gives them. *)
Definition scoredAs (o i : Player.t) (sg : TransferSuggestion.t) : Prop :=
  let m := TransferSuggestion.metrics sg in
  Metrics.base m == clamp 0 100 (50 + 10 * (ppgOf i - ppgOf o)) /\
  Metrics.mins m == (if bool_decide (Player.status i = StA) then 80 else 40) /\
  Metrics.fixt m == 70 /\
  Metrics.form m == clamp 0 100 (50 + 20 * (formOf i - formOf o)) /\
  gain sg ==
    ((3 # 10) * Metrics.base m + (2 # 10) * Metrics.mins m
     + (2 # 10) * Metrics.fixt m + (3 # 10) * Metrics.form m) / 10.

(** The transfer list as claimed, and with ties allowed. *)
Definition strictRanking (l : list TransferSuggestion.t) : Prop :=
  Forall (fun sg => 5 < gain sg) l /\ strictlyDescending l /\ (length l <= 9)%nat.

Definition ranking (l : list TransferSuggestion.t) : Prop :=
  Forall (fun sg => 5 < gain sg) l /\ descending l /\ (length l <= 9)%nat.

End ScoringRules.

(** ** The rest of the squad store ([src/store/teamStore.ts]) *)

Module TeamPick.
Record t := mk { element : Z; is_captain : bool; is_vice_captain : bool }.
End TeamPick.

Module EntryHistory.
Record t := mk { bank : Z }.
End EntryHistory.

Module FPLTeamData.
Record t := mk { entry_history : EntryHistory.t; picks : list TeamPick.t }.
End FPLTeamData.

Module ManagerInfo.
Record t := mk {
  name : string;
  player_first_name : string;
  player_last_name : string
}.
End ManagerInfo.

(** What [fplApi.getManagerTeamData] resolves to: [{ manager, picks }]. *)
Module ManagerTeamData.
Record t := mk { manager : ManagerInfo.t; picks : FPLTeamData.t }.
End ManagerTeamData.

Module TeamStoreOps.

Import TeamStore.

Definition setFormation (s : TeamState) (f : Formation) : TeamState :=
  {| teamId := teamId s; teamName := teamName s; managerName := managerName s;
     players := players s; formation := f; budget := budget s;
     teamValue := teamValue s; captain := captain s;
     viceCaptain := viceCaptain s; isLoading := isLoading s; error := None |}.

Definition updateBudget (s : TeamState) (amount : Z) : TeamState :=
  {| teamId := teamId s; teamName := teamName s; managerName := managerName s;
     players := players s; formation := formation s; budget := amount;
     teamValue := teamValue s; captain := captain s;
     viceCaptain := viceCaptain s; isLoading := isLoading s; error := error s |}.

Definition resetError (s : TeamState) : TeamState := set_error None s.

(** [loadTeamById] writes the store twice: once before it awaits the two
    requests, once when they have settled.  Other mutations may run in
    between, so the two writes are two transitions. *)

(** [set({ isLoading: true, error: null })] *)
Definition loadTeamById_start (s : TeamState) : TeamState :=
  {| teamId := teamId s; teamName := teamName s; managerName := managerName s;
     players := players s; formation := formation s; budget := budget s;
     teamValue := teamValue s; captain := captain s;
     viceCaptain := viceCaptain s; isLoading := true; error := None |}.

(** [pick?.element || null]: no pick, or the id 0, gives [null]. *)
Definition element_or_null (pick : option TeamPick.t) : option Z :=
  match pick with
  | Some pk => if TeamPick.element pk =? 0 then None else Some (TeamPick.element pk)
  | None => None
  end.

(** [picks.map(pick => allPlayers.find(p => p.id === pick.element))
          .filter(p => p !== undefined)] *)
Definition resolvePicks (picks : list TeamPick.t) (allPlayers : list Player.t)
    : list Player.t :=
  omap (fun pick => find (fun p => Player.id p =? TeamPick.element pick) allPlayers)
       picks.

(** The [try] branch after both requests resolved. *)
Definition loadTeamById_resolved (s : TeamState) (teamId : Z)
    (teamResponse : ManagerTeamData.t) (allPlayers : list Player.t) : TeamState :=
  let manager := ManagerTeamData.manager teamResponse in
  let teamData := ManagerTeamData.picks teamResponse in
  let teamPlayers := resolvePicks (FPLTeamData.picks teamData) allPlayers in
  let captainPick := find TeamPick.is_captain (FPLTeamData.picks teamData) in
  let viceCaptainPick := find TeamPick.is_vice_captain (FPLTeamData.picks teamData) in
  let teamValue := sumCost teamPlayers in
  {| teamId := Some teamId;
     teamName := ManagerInfo.name manager;
     managerName := ManagerInfo.player_first_name manager +:+ " "
                    +:+ ManagerInfo.player_last_name manager;
     players := teamPlayers;
     formation := formation s;
     budget := EntryHistory.bank (FPLTeamData.entry_history teamData);
     teamValue := teamValue;
     captain := element_or_null captainPick;
     viceCaptain := element_or_null viceCaptainPick;
     isLoading := false;
     error := None |}.

(** The [catch] branch; [message] is [error.message], possibly undefined. *)
Definition loadTeamById_rejected (s : TeamState) (message : option string)
    : TeamState :=
  let shown :=
    match message with
    | Some (String _ _ as m) => m
    | _ => "Failed to load team. Please try again."
    end in
  {| teamId := teamId s; teamName := teamName s; managerName := managerName s;
     players := players s; formation := formation s; budget := budget s;
     teamValue := teamValue s; captain := captain s;
     viceCaptain := viceCaptain s; isLoading := false; error := Some shown |}.

(** Every synchronous mutation of the store. *)
Inductive Command :=
| Act (a : Action)
| SetFormation (f : Formation)
| UpdateBudget (amount : Z)
| ResetError.

Definition exec (s : TeamState) (c : Command) : TeamState :=
  match c with
  | Act a => step s a
  | SetFormation f => setFormation s f
  | UpdateBudget amount => updateBudget s amount
  | ResetError => resetError s
  end.

Definition execAll (cs : list Command) : TeamState := foldl exec initialState cs.

End TeamStoreOps.

(** ** Words for the picks of a loaded team *)

Module PickRules.

(** [pk] is the first pick of the list that carries the flag. *)
Definition firstFlagged (flag : TeamPick.t -> bool) (picks : list TeamPick.t)
    (pk : TeamPick.t) : Prop :=
  exists before after,
    picks = before ++ pk :: after /\ flag pk = true /\
    Forall (fun q => flag q = false) before.

(** No pick of the list carries the flag. *)
Definition noneFlagged (flag : TeamPick.t -> bool) (picks : list TeamPick.t) : Prop :=
  Forall (fun q => flag q = false) picks.

(** The armband a flagged pick gives: the picked id, and none for the id 0. *)
Definition armbandOf (pk : TeamPick.t) : option Z :=
  if decide (TeamPick.element pk = 0) then None else Some (TeamPick.element pk).

End PickRules.

(** ** Squad helpers ([src/lib/utils.ts]) *)

Module Utils.

Definition countType (elementType : Z) (players : list Player.t) : Z :=
  Z.of_nat (length (filter (fun p => Player.element_type p = elementType) players)).

Definition isTeamComplete (players : list Player.t) : bool :=
  if negb (Z.of_nat (length players) =? 15) then false
  else
    let gk := countType 1 players in
    let def := countType 2 players in
    let mid := countType 3 players in
    let fwd := countType 4 players in
    (gk =? 2) && (def =? 5) && (mid =? 5) && (fwd =? 3).

Definition calculateRemainingBudget (players : list Player.t) (totalBudget : Z) : Z :=
  let spent := foldl (fun sum player => sum + Player.now_cost player) 0 players in
  totalBudget - spent.

End Utils.

(** ** Shape of a squad under construction *)

Module SquadShape.

Import TeamStore SquadRules.

(** At most 15 members with pairwise different ids, no position above its
    quota, no club above three, and a squad value that is the sum of the
    member prices. *)
Definition wellFormed (s : TeamState) : Prop :=
  (length (players s) <= 15)%nat /\
  NoDup (map Player.id (players s)) /\
  (forall et pos, position_of et = Some pos ->
     (countWhere (fun q => Player.element_type q = et) (players s) <= quota pos)%nat) /\
  (forall club, (countWhere (fun q => Player.team q = club) (players s) <= 3)%nat) /\
  teamValue s = totalPrice (players s).

End SquadShape.

(** ** Sample data *)

Module Samples.

(** A sample squad used to exercise the statements below. *)
Definition sampleA : Player.t := Player.mk 1 3 7 StA 80 "6.0" "5.0" None 1800.
Definition sampleB : Player.t := Player.mk 2 4 8 StA 95 "4.1" "3.5" None 1500.
Definition sampleC : Player.t := Player.mk 3 2 7 StD 45 "2.0" "1.5" (Some 50) 700.

Definition sampleState : TeamStore.TeamState :=
  {| TeamStore.teamId := None; TeamStore.teamName := ""; TeamStore.managerName := "";
     TeamStore.players := [sampleA; sampleB; sampleC];
     TeamStore.formation := F343; TeamStore.budget := 50; TeamStore.teamValue := 220;
     TeamStore.captain := Some 1; TeamStore.viceCaptain := Some 2; TeamStore.isLoading := false; TeamStore.error := None |}.

(** An injured goalkeeper with good numbers otherwise. *)
Definition injuredKeeper : Player.t :=
  Player.mk 9 1 7 StI 50 "4.0" "6.5" (Some 100%Z) 1700.

(** A regular midfielder of a side with home attack strength 1200, playing
    at home against a difficulty-2 opponent. *)
Definition homeMidfielder : Player.t :=
  Player.mk 1 3 7 StA 80 "6.0" "5.0" None 1800.
Definition homeSide : Team.t := Team.mk 7 1200 1100 1000 900.
Definition homeFixture : Fixture.t := Fixture.mk 8 7 2 4.

(** One squad member and two pool players with the same form and
    points per game. *)
Definition squadMid : Player.t := Player.mk 1 3 7 StA 80 "3.0" "2.0" None 1800.
Definition poolMidA : Player.t := Player.mk 2 3 8 StA 80 "6.0" "5.0" None 1800.
Definition poolMidB : Player.t := Player.mk 3 3 9 StA 80 "6.0" "5.0" None 1800.

(** An available player with a 25% chance of playing and half of the
    possible minutes, and an available player who played every minute. *)
Definition unlikelyStarter : Player.t :=
  Player.mk 21 3 7 StA 60 "3.0" "3.0" (Some 25%Z) 900.
Definition everPresent : Player.t :=
  Player.mk 22 3 7 StA 60 "3.0" "3.0" None 1800.

(** A match that cost points (a sending-off and an own goal). *)
Definition badMatch : list PlayerHistory.t := [PlayerHistory.mk (-3)].

End Samples.

(** ** The rest of the prediction module ([src/lib/predictions.ts]) *)

(** A fixture object with its [event] field (the gameweek, or [null] when
    unscheduled) beside the four fields that [Fixture.t] carries. *)
Module ScheduledFixture.
Record t := mk { event : option Z; fixture : Fixture.t }.
End ScheduledFixture.

(** A player object with its [selected_by_percent] field beside the fields
    that [Player.t] carries. *)
Module OwnedPlayer.
Record t := mk { player : Player.t; selected_by_percent : string }.
End OwnedPlayer.

Module GameweekPrediction.
Record t := mk { gameweek : Z; prediction : PlayerPrediction.t }.
End GameweekPrediction.

(** [PlayerPrediction & { ownership, differentialScore }]; [None] is [NaN]. *)
Module DifferentialPick.
Record t := mk {
  prediction : PlayerPrediction.t;
  ownership : option Q;
  differentialScore : option Q
}.
End DifferentialPick.

Module DifficultyRating.
Record t := mk { rating : string; color : string; description : string }.
End DifficultyRating.

Module FplApi.

(** [fplApi.getDifficultyColor] ([src/lib/fpl-api.ts]) *)
Definition getDifficultyColor (difficulty : Z) : string :=
  if difficulty <=? 2 then "green"
  else if difficulty =? 3 then "yellow"
  else "red".

End FplApi.

Module PredictionsRest.

Import Predictions.

Local Open Scope Q_scope.

(** [xs.slice(0, n)] for an integer [n]: a negative [n] counts from the end. *)
Definition slice0 {A} (n : Z) (xs : list A) : list A :=
  if (n <? 0)%Z then take (Z.to_nat (Z.of_nat (length xs) + n)) xs
  else take (Z.to_nat n) xs.

(** [event || 0] *)
Definition event_or_zero (event : option Z) : Z :=
  match event with
  | Some e => e
  | None => 0%Z
  end.

(** [numGameweeks] defaults to 3 when it is not passed. *)
Definition predictMultipleGameweeks (player : Player.t)
    (fixtures : list ScheduledFixture.t) (teams : list Team.t)
    (numGameweeks : option Z) (history : option (list PlayerHistory.t))
    : list GameweekPrediction.t :=
  map (fun f =>
         GameweekPrediction.mk (event_or_zero (ScheduledFixture.event f))
           (predictPlayerPoints player (Some (ScheduledFixture.fixture f)) teams history))
      (slice0 (default 3%Z numGameweeks) fixtures).

Definition byPointsDesc (a b : PlayerPrediction.t) : Q :=
  inject_Z (PlayerPrediction.predictedPoints b - PlayerPrediction.predictedPoints a).

(** [limit] defaults to 10. *)
Definition getTopCaptainPicks (players : list Player.t)
    (nextFixture : Z -> option Fixture.t) (teams : list Team.t)
    (limit : option Z) : list PlayerPrediction.t :=
  let predictions :=
    TransferPlanner.sort byPointsDesc
      (map (fun player =>
              let fixture := nextFixture (Player.id player) in
              predictPlayerPoints player fixture teams None)
           players) in
  slice0 (default 10%Z limit) predictions.

(** [Math.max(0, 100 - ownership)]; [NaN] stays [NaN]. *)
Definition calculateDifferentialScore (player : OwnedPlayer.t) : option Q :=
  let ownership := JS.parseFloat (OwnedPlayer.selected_by_percent player) in
  match ownership with
  | Some o => Some (Qmax 0 (100 - o))
  | None => None
  end.

(** [x <= y] where [x] may be [NaN]: a comparison with [NaN] is false. *)
Definition nan_le (x : option Q) (y : Q) : bool :=
  match x with
  | Some q => Qle_bool q y
  | None => false
  end.

(** [points * 0.7 + differentialScore * 0.3] *)
Definition blend (e : DifferentialPick.t) : option Q :=
  match DifferentialPick.differentialScore e with
  | Some d =>
      Some (inject_Z (PlayerPrediction.predictedPoints (DifferentialPick.prediction e))
            * (7 # 10) + d * (3 # 10))
  | None => None
  end.

(** The comparator [scoreB - scoreA]; a [NaN] result counts as 0 in
    [Array.prototype.sort]. *)
Definition byBlendDesc (a b : DifferentialPick.t) : Q :=
  match blend b, blend a with
  | Some scoreB, Some scoreA => scoreB - scoreA
  | _, _ => 0
  end.

(** [maxOwnership] and [limit] default to 10. *)
Definition getDifferentialCaptains (players : list OwnedPlayer.t)
    (nextFixture : Z -> option Fixture.t) (teams : list Team.t)
    (maxOwnership : option Q) (limit : option Z) : list DifferentialPick.t :=
  let predictions :=
    TransferPlanner.sort byBlendDesc
      (map (fun player =>
              let fixture := nextFixture (Player.id (OwnedPlayer.player player)) in
              let prediction :=
                predictPlayerPoints (OwnedPlayer.player player) fixture teams None in
              let ownership := JS.parseFloat (OwnedPlayer.selected_by_percent player) in
              let differentialScore := calculateDifferentialScore player in
              DifferentialPick.mk prediction ownership differentialScore)
           (List.filter
              (fun player =>
                 nan_le (JS.parseFloat (OwnedPlayer.selected_by_percent player))
                        (default 10 maxOwnership))
              players)) in
  slice0 (default 10%Z limit) predictions.

Definition calculateTeamPredictedPoints (players : list Player.t)
    (nextFixture : Z -> option Fixture.t) (teams : list Team.t)
    (captain : option Z) : Z :=
  let totalPoints :=
    foldl (fun totalPoints player =>
             let fixture := nextFixture (Player.id player) in
             let prediction := predictPlayerPoints player fixture teams None in
             let multiplier :=
               if TeamStore.is_id captain (Player.id player) then 2%Z else 1%Z in
             (totalPoints + PlayerPrediction.predictedPoints prediction * multiplier)%Z)
          0%Z players in
  JS.round (inject_Z totalPoints).

Definition getFixtureDifficultyRating (difficulty : Z) : DifficultyRating.t :=
  if (difficulty =? 1)%Z then
    DifficultyRating.mk "Very Easy" "green" "Excellent fixture for points"
  else if (difficulty =? 2)%Z then
    DifficultyRating.mk "Easy" "green" "Good fixture for points"
  else if (difficulty =? 3)%Z then
    DifficultyRating.mk "Moderate" "yellow" "Average fixture"
  else if (difficulty =? 4)%Z then
    DifficultyRating.mk "Hard" "red" "Tough fixture"
  else
    DifficultyRating.mk "Very Hard" "red" "Very difficult fixture".

End PredictionsRest.

(** ** Words for the properties of the rankings *)

Module RankingRules.

Local Open Scope Q_scope.

Definition points (pr : PlayerPrediction.t) : Z := PlayerPrediction.predictedPoints pr.

(** The prediction of a player against the fixture the lookup gives him. *)
Definition predictionOf (nextFixture : Z -> option Fixture.t) (teams : list Team.t)
    (p : Player.t) : PlayerPrediction.t :=
  Predictions.predictPlayerPoints p (nextFixture (Player.id p)) teams None.

Definition pointsDescending (l : list PlayerPrediction.t) : Prop :=
  StronglySorted (fun a b => (points b <= points a)%Z) l.

(** Sum of a list of integers. *)
Definition total (l : list Z) : Z := foldr Z.add 0%Z l.

(** The difficulty rating of the player's side of a fixture. *)
Definition sideDifficulty (p : Player.t) (f : Fixture.t) : Z :=
  if (Fixture.team_h f =? Player.team p)%Z then Fixture.team_h_difficulty f
  else Fixture.team_a_difficulty f.

(** The strength rating the home/away score reads: defence for goalkeepers
    and defenders, attack for the others; home when the player's team is the
    home side. *)
Definition sideStrength (p : Player.t) (f : Fixture.t) (t : Team.t) : Z :=
  let isHome := (Fixture.team_h f =? Player.team p)%Z in
  if ((Player.element_type p =? 1) || (Player.element_type p =? 2))%Z then
    if isHome then Team.strength_defence_home t else Team.strength_defence_away t
  else
    if isHome then Team.strength_attack_home t else Team.strength_attack_away t.

(** The blended score of a differential pick, [0] when it is not a number. *)
Definition blendOf (e : DifferentialPick.t) : Q := JS.or_zero (PredictionsRest.blend e).

End RankingRules.

(** ** Display helpers and formations ([src/lib/utils.ts]) *)

Module FormationStructure.
Record t := mk { gk : Z; def : option Q; mid : option Q; fwd : option Q }.
End FormationStructure.

Module UtilsText.

Local Open Scope Q_scope.

(** [x.toFixed(1)] for |x| below 10^21: the sign, then the digits of the
    integer [n] nearest to 10|x| (the larger one on a tie), padded to two
    digits, with a point before the last digit. *)
Definition toFixed1 (x : Q) : string :=
  let negative := JS.Qltb x 0 in
  let n := Z.to_N (Qfloor ((if negative then - x else x) * 10 + (1 # 2))) in
  (if negative then "-" else "")
  +:+ pretty (n / 10)%N +:+ "." +:+ pretty (n mod 10)%N.

(** [formatPrice]: prices are kept in tenths. *)
Definition formatPrice (price : Z) : string :=
  "£" +:+ toFixed1 (inject_Z price / 10) +:+ "m".

(** [s.split(sep)] for a separator of one character. *)
Fixpoint split (sep : ascii) (s : string) : list string :=
  match s with
  | EmptyString => [EmptyString]
  | String c r =>
      if Ascii.eqb c sep then EmptyString :: split sep r
      else
        match split sep r with
        | first :: others => String c first :: others
        | [] => [String c EmptyString]
        end
  end.

(** Reads a decimal literal and returns what follows it. *)
Definition read_decimal (s : string) : option (Q * string) :=
  let '(sg, s1) := JS.read_sign s in
  let '(ip, ni, s2) := JS.read_digits s1 0%Z 0%nat in
  let '(fp, nf, s3) :=
    match s2 with
    | String "." r => JS.read_digits r 0%Z 0%nat
    | _ => (0%Z, 0%nat, s2)
    end in
  match (ni + nf)%nat with
  | O => None
  | S _ =>
      let mantissa := inject_Z ip + inject_Z fp / inject_Z (10 ^ Z.of_nat nf) in
      Some (inject_Z sg * mantissa, s3)
  end.

(** [Number(s)] for a string: blanks around a decimal literal without
    exponent are allowed, the empty string is 0, anything else is [NaN]
    ([None]).  Hexadecimal, exponent and [Infinity] literals are outside the
    model. *)
Definition Number (s : string) : option Q :=
  match JS.skip_spaces s with
  | EmptyString => Some 0
  | t =>
      match read_decimal t with
      | Some (q, rest) =>
          match JS.skip_spaces rest with
          | EmptyString => Some q
          | _ => None
          end
      | None => None
      end
  end.

(** The string of a [Formation] value. *)
Definition formationText (f : Formation) : string :=
  match f with
  | F343 => "3-4-3"
  | F352 => "3-5-2"
  | F433 => "4-3-3"
  | F442 => "4-4-2"
  | F451 => "4-5-1"
  | F532 => "5-3-2"
  | F541 => "5-4-1"
  end.

(** [const [def, mid, fwd] = formation.split("-").map(Number)]: a missing
    element is [undefined], which like [NaN] is [None] here. *)
Definition parseFormation (formation : Formation) : FormationStructure.t :=
  let parts := map Number (split "-" (formationText formation)) in
  FormationStructure.mk 1
    (mjoin (parts !! 0%nat)) (mjoin (parts !! 1%nat)) (mjoin (parts !! 2%nat)).

Definition getValidFormations : list Formation :=
  [F343; F352; F433; F442; F451; F532; F541].

(** [count >= x] where [x] may be [undefined] or [NaN]. *)
Definition ge_number (count : Z) (x : option Q) : bool :=
  match x with
  | Some q => Qle_bool q (inject_Z count)
  | None => false
  end.

Definition isValidFormation (formation : Formation) (players : list Player.t) : bool :=
  let structure := parseFormation formation in
  let gk := Utils.countType 1 players in
  let def := Utils.countType 2 players in
  let mid := Utils.countType 3 players in
  let fwd := Utils.countType 4 players in
  (FormationStructure.gk structure <=? gk)%Z
  && ge_number def (FormationStructure.def structure)
  && ge_number mid (FormationStructure.mid structure)
  && ge_number fwd (FormationStructure.fwd structure).

End UtilsText.

(** ** Further sample data *)

Module MoreSamples.

Import TeamStore TeamStoreOps.

(** Fifteen players, 2/5/5/3 by position, three per club. *)
Definition fullSquad : list Player.t :=
  [ Player.mk 101 1 1 StA 50 "3.0" "3.0" None 900;
    Player.mk 102 1 2 StA 45 "3.0" "3.0" None 900;
    Player.mk 201 2 1 StA 50 "3.0" "3.0" None 900;
    Player.mk 202 2 2 StA 50 "3.0" "3.0" None 900;
    Player.mk 203 2 3 StA 50 "3.0" "3.0" None 900;
    Player.mk 204 2 4 StA 50 "3.0" "3.0" None 900;
    Player.mk 205 2 5 StA 50 "3.0" "3.0" None 900;
    Player.mk 301 3 1 StA 70 "3.0" "3.0" None 900;
    Player.mk 302 3 2 StA 70 "3.0" "3.0" None 900;
    Player.mk 303 3 3 StA 70 "3.0" "3.0" None 900;
    Player.mk 304 3 4 StA 70 "3.0" "3.0" None 900;
    Player.mk 305 3 5 StA 70 "3.0" "3.0" None 900;
    Player.mk 401 4 3 StA 90 "3.0" "3.0" None 900;
    Player.mk 402 4 4 StA 90 "3.0" "3.0" None 900;
    Player.mk 403 4 5 StA 90 "3.0" "3.0" None 900 ].

Definition buildFullSquad : list Command := map (fun p => Act (AddPlayer p)) fullSquad.

Definition newcomer : Player.t := Player.mk 77 4 3 StA 45 "2.5" "2.0" None 400.

Definition samplePicks : list TeamPick.t :=
  [ TeamPick.mk 1 true false; TeamPick.mk 2 false true; TeamPick.mk 3 false false ].

Definition sampleResponse : ManagerTeamData.t :=
  ManagerTeamData.mk (ManagerInfo.mk "Eleven" "Ada" "Byron")
    (FPLTeamData.mk (EntryHistory.mk 15) samplePicks).

Definition ownedA : OwnedPlayer.t := OwnedPlayer.mk Samples.sampleA "4.5".
Definition ownedB : OwnedPlayer.t := OwnedPlayer.mk Samples.sampleB "38.2".
Definition ownedC : OwnedPlayer.t := OwnedPlayer.mk Samples.sampleC "".

Definition schedule : list ScheduledFixture.t :=
  [ ScheduledFixture.mk (Some 12) Samples.homeFixture;
    ScheduledFixture.mk None (Fixture.mk 7 9 3 3);
    ScheduledFixture.mk (Some 14) (Fixture.mk 7 4 5 1);
    ScheduledFixture.mk (Some 15) (Fixture.mk 2 7 2 2) ].

(** The store after one midfielder was bought. *)
Definition oneMidfielder : TeamState := execAll [Act (AddPlayer Samples.squadMid)].

End MoreSamples.

(** * Verification *)

(** ** Squad store *)

Module TeamStoreFacts.

Import TeamStore SquadRules Samples.

Lemma foldl_cost_acc (ps : list Player.t) (a : Z) :
  foldl (fun sum p => sum + Player.now_cost p) a ps = a + totalPrice ps.
Proof.
  revert a. induction ps as [|p ps IH]; intros a; simpl.
  - lia.
  - rewrite IH. lia.
Qed.

Lemma sumCost_totalPrice (ps : list Player.t) : sumCost ps = totalPrice ps.
Proof. unfold sumCost. rewrite foldl_cost_acc. lia. Qed.

Lemma existsb_member (s : TeamState) (i : Z) :
  existsb (fun p => Player.id p =? i) (players s) = true <-> member s i.
Proof.
  rewrite existsb_exists. unfold member. split.
  - intros (p & Hin & Hp). exists p. split; [by apply list_elem_of_In|lia].
  - intros (p & Hin & Hp). exists p. split; [by apply list_elem_of_In|lia].
Qed.

Lemma find_member (s : TeamState) (i : Z) (p : Player.t) :
  find (fun p => Player.id p =? i) (players s) = Some p -> member s i.
Proof.
  intros Hf. apply find_some in Hf as [Hin Hp].
  exists p. split; [by apply list_elem_of_In|lia].
Qed.

Lemma ge_limit_quotaMet (s : TeamState) (p : Player.t) :
  ge_limit (getPositionCount s (Player.element_type p))
           (positionLimits (Player.element_type p)) = true <-> quotaMet s p.
Proof.
  unfold quotaMet, getPositionCount, countWhere, positionLimits, ge_limit.
  set (n := length _). split.
  - intros Hle. repeat case_match; simplify_eq; apply Z.leb_le in Hle.
    + exists GK. split; [by replace (Player.element_type p) with 1 by lia|simpl; lia].
    + exists DEF. split; [by replace (Player.element_type p) with 2 by lia|simpl; lia].
    + exists MID. split; [by replace (Player.element_type p) with 3 by lia|simpl; lia].
    + exists FWD. split; [by replace (Player.element_type p) with 4 by lia|simpl; lia].
  - intros (pos & Hpos & Hle). unfold position_of in Hpos.
    repeat case_match; simplify_eq; simpl in *; try lia.
Qed.

Lemma clubFull_count (s : TeamState) (p : Player.t) :
  (3 <=? getTeamPlayerCount s (Player.team p)) = true <-> clubFull s p.
Proof.
  unfold clubFull, getTeamPlayerCount, countWhere. rewrite Z.leb_le. lia.
Qed.

(** [canAddPlayer] accepts exactly the players that no rule rejects. *)
Lemma canAddPlayer_decides (s : TeamState) (p : Player.t) :
  if valid (canAddPlayer s p) then ~ rejects s p else rejects s p.
Proof.
  unfold canAddPlayer, rejects, membershipRejects.
  destruct (15 <=? Z.of_nat (length (players s))) eqn:Hfull.
  { simpl. left. left. unfold squadFull. lia. }
  destruct (existsb _ _) eqn:Hdup.
  { simpl. left. right. left. by apply existsb_member. }
  cbv zeta.
  destruct (ge_limit _ _) eqn:Hq.
  { simpl. left. right. right. left. by apply ge_limit_quotaMet. }
  destruct (3 <=? _) eqn:Hclub.
  { simpl. left. do 3 right. by apply clubFull_count. }
  assert (Hnm : ~ (squadFull s \/ member s (Player.id p) \/ quotaMet s p \/ clubFull s p)).
  { intros [H|[H|[H|H]]].
    - unfold squadFull in H. lia.
    - apply existsb_member in H. congruence.
    - apply ge_limit_quotaMet in H. congruence.
    - apply clubFull_count in H. congruence. }
  destruct (_ <? _) eqn:Hb; simpl.
  - right. unfold overBudget. lia.
  - intros [H|H]; [done|]. unfold overBudget in H. lia.
Qed.

Lemma canAddPlayer_valid (s : TeamState) (p : Player.t) :
  valid (canAddPlayer s p) = true <-> ~ rejects s p.
Proof.
  pose proof (canAddPlayer_decides s p) as H.
  destruct (valid _); split; try done.
Qed.

Lemma canAddPlayer_reason (s : TeamState) (p : Player.t) :
  valid (canAddPlayer s p) = false -> exists r, reason (canAddPlayer s p) = Some r.
Proof.
  unfold canAddPlayer. cbv zeta.
  destruct (15 <=? _); [simpl; eauto|].
  destruct (existsb _ _); [simpl; eauto|].
  destruct (ge_limit _ _); [simpl; eauto|].
  destruct (3 <=? _); [simpl; eauto|].
  destruct (_ <? _); [simpl; eauto|discriminate].
Qed.

Lemma member_app (s : TeamState) (v : Z) (p : Player.t) (i : Z) :
  member s i -> member (set_squad (players s ++ [p]) v s) i.
Proof.
  intros (q & Hin & Hq). exists q. split; [|done]. simpl.
  apply elem_of_app. by left.
Qed.

Lemma clear_if_spec (i : Z) (o : option Z) (c : Z) :
  clear_if i o = Some c <-> o = Some c /\ c <> i.
Proof.
  destruct o as [d|]; simpl; [|split; [discriminate|intros [? _]; discriminate]].
  destruct (d =? i) eqn:E.
  - split; [discriminate|]. intros [? ?]. simplify_eq. lia.
  - split; intros H; simplify_eq; [split; [done|lia]|by destruct H as [-> _]].
Qed.

Lemma armbandsOk_addPlayer (s : TeamState) (p : Player.t) :
  armbandsOk s -> armbandsOk (addPlayer s p).
Proof.
  intros (Hc & Hv & Hd). unfold addPlayer. cbv zeta.
  destruct (negb _); [done|].
  split; [|split]; simpl; [| |done].
  - intros c E. by apply member_app, Hc.
  - intros v E. by apply member_app, Hv.
Qed.

Lemma armbandsOk_removePlayer (s : TeamState) (i : Z) :
  armbandsOk s -> armbandsOk (removePlayer s i).
Proof.
  intros (Hc & Hv & Hd). unfold removePlayer. cbv zeta.
  assert (Hkeep : forall c, member s c -> c <> i ->
            exists q, q ∈ filter (fun q => Player.id q <> i) (players s)
                      /\ Player.id q = c).
  { intros c (q & Hin & Hq) Hne. exists q. split; [|done].
    apply list_elem_of_filter. split; [congruence|done]. }
  split; [|split]; simpl.
  - intros c E. apply clear_if_spec in E as [E Hne]. by apply Hkeep; [apply Hc|].
  - intros v E. apply clear_if_spec in E as [E Hne]. by apply Hkeep; [apply Hv|].
  - intros c v Ec Ev. apply clear_if_spec in Ec as [Ec _].
    apply clear_if_spec in Ev as [Ev _]. by apply Hd.
Qed.

Lemma armbandsOk_setCaptain (s : TeamState) (i : Z) :
  armbandsOk s -> armbandsOk (setCaptain s i).
Proof.
  intros (Hc & Hv & Hd). unfold setCaptain.
  destruct (find _ _) as [p|] eqn:Hf; [|done].
  apply find_member in Hf.
  split; [|split]; simpl.
  - intros c E. by simplify_eq.
  - intros v E. apply clear_if_spec in E as [E _]. by apply Hv.
  - intros c v Ec Ev. apply clear_if_spec in Ev as [_ Hne]. by simplify_eq.
Qed.

Lemma armbandsOk_setViceCaptain (s : TeamState) (i : Z) :
  armbandsOk s -> armbandsOk (setViceCaptain s i).
Proof.
  intros (Hc & Hv & Hd). unfold setViceCaptain.
  destruct (find _ _) as [p|] eqn:Hf; [|done].
  apply find_member in Hf.
  destruct (is_id _ _) eqn:Hcap; [done|].
  split; [|split]; simpl.
  - done.
  - intros v E. by simplify_eq.
  - intros c v Ec Ev. simplify_eq. rewrite Ec in Hcap. simpl in Hcap. lia.
Qed.

Lemma armbandsOk_initial : armbandsOk initialState.
Proof. split; [|split]; simpl; intros; discriminate. Qed.

Lemma armbandsOk_step (s : TeamState) (a : Action) :
  armbandsOk s -> armbandsOk (step s a).
Proof.
  destruct a; simpl.
  - apply armbandsOk_addPlayer.
  - apply armbandsOk_removePlayer.
  - apply armbandsOk_setCaptain.
  - apply armbandsOk_setViceCaptain.
  - intros _. apply armbandsOk_initial.
Qed.

Lemma armbandsOk_foldl (acts : list Action) (s : TeamState) :
  armbandsOk s -> armbandsOk (foldl step s acts).
Proof.
  revert s. induction acts as [|a acts IH]; intros s Hs; simpl; [done|].
  by apply IH, armbandsOk_step.
Qed.

Example addPlayer_duplicate :
  error (addPlayer sampleState sampleA) = Some "Player already in team"
  /\ players (addPlayer sampleState sampleA) = players sampleState.
Proof. split; reflexivity. Qed.

Example addPlayer_quota_reason :
  reason (canAddPlayer
            (set_squad [sampleB; sampleB; sampleB] 0 sampleState)
            (Player.mk 40 4 3 StA 10 "0.0" "0.0" None 0))
  = Some "Maximum 3 FWD allowed".
Proof. reflexivity. Qed.

Example addPlayer_too_dear :
  error (addPlayer sampleState (Player.mk 40 4 3 StA 51 "0.0" "0.0" None 0))
  = Some "Insufficient budget"
  /\ error (addPlayer sampleState (Player.mk 40 4 3 StA 50 "0.0" "0.0" None 0))
     = None.
Proof. split; reflexivity. Qed.

(** C6. [addPlayer] has exactly two outcomes.  When one of the five rules
    rejects the player (squad of 15, id already present, position quota
    2/5/5/3 met, already 3 from the club, price that would lift the squad
    value above bank plus squad value), a reason string is recorded and
    nothing else changes.
    Otherwise the player is appended, the squad value becomes the sum of all
    member prices and the error is cleared.  No other outcome exists, so the
    mutation is never applied in part. *)
Theorem addPlayer_rejects_exactly (s : TeamState) (p : Player.t) :
  let s' := addPlayer s p in
  (rejects s p /\
   (exists r, error s' = Some r) /\
   players s' = players s /\ teamValue s' = teamValue s /\
   captain s' = captain s /\ viceCaptain s' = viceCaptain s /\ sameProfile s s')
  \/
  (~ rejects s p /\
   error s' = None /\
   players s' = players s ++ [p] /\ teamValue s' = totalPrice (players s') /\
   captain s' = captain s /\ viceCaptain s' = viceCaptain s /\ sameProfile s s').
Proof.
  cbv zeta. unfold addPlayer. cbv zeta.
  pose proof (canAddPlayer_decides s p) as Hdec.
  destruct (valid (canAddPlayer s p)) eqn:Hv; simpl.
  - right. rewrite sumCost_totalPrice. unfold sameProfile. simpl. tauto.
  - left. destruct (canAddPlayer_reason s p Hv) as [r Hr].
    rewrite Hr. unfold sameProfile. simpl. repeat split; eauto.
Qed.

(** C7. From the empty initial state, whatever sequence of [addPlayer],
    [removePlayer], [setCaptain], [setViceCaptain] and [clearTeam] is run, the
    store holds at most one captain and one vice-captain (each is one optional
    id), each designation that is set is the id of a current squad member, and
    the two are different when both are set. *)
Theorem armbands_invariant (acts : list Action) : armbandsOk (run acts).
Proof. unfold run. apply armbandsOk_foldl, armbandsOk_initial. Qed.

(** C8. Removing the captain clears the captain designation, removing the
    vice-captain clears that designation, removing anybody else leaves both
    designations as they were; in every case the squad keeps exactly the
    members with another id and the squad value is the sum of their prices. *)
Theorem removePlayer_armbands (s : TeamState) (playerId : Z) :
  let s' := removePlayer s playerId in
  (captain s = Some playerId -> captain s' = None) /\
  (viceCaptain s = Some playerId -> viceCaptain s' = None) /\
  (captain s <> Some playerId -> viceCaptain s <> Some playerId ->
   captain s' = captain s /\ viceCaptain s' = viceCaptain s) /\
  (forall p, p ∈ players s' <-> p ∈ players s /\ Player.id p <> playerId) /\
  teamValue s' = totalPrice (players s').
Proof.
  cbv zeta. unfold removePlayer. cbv zeta. simpl.
  assert (Hclr : forall o, o = Some playerId -> clear_if playerId o = None).
  { intros o ->. simpl. by rewrite Z.eqb_refl. }
  assert (Hkeep : forall o, o <> Some playerId -> clear_if playerId o = o).
  { intros [c|] Hne; simpl; [|done].
    destruct (Z.eqb_spec c playerId); [congruence|done]. }
  split; [apply Hclr|]. split; [apply Hclr|].
  split; [intros Hc Hv; split; by apply Hkeep|].
  split; [|apply sumCost_totalPrice].
  intros p. rewrite list_elem_of_filter. tauto.
Qed.

Lemma removePlayer_armbands_witness :
  (captain sampleState = Some 1 /\ captain (removePlayer sampleState 1) = None) /\
  (viceCaptain sampleState = Some 2 /\
   viceCaptain (removePlayer sampleState 2) = None) /\
  (captain sampleState <> Some 3 /\ viceCaptain sampleState <> Some 3 /\
   captain (removePlayer sampleState 3) = Some 1 /\
   viceCaptain (removePlayer sampleState 3) = Some 2).
Proof.
  split; [|split].
  - split; [reflexivity|].
    apply (removePlayer_armbands sampleState 1). reflexivity.
  - split; [reflexivity|].
    apply (removePlayer_armbands sampleState 2). reflexivity.
  - split; [simpl; discriminate|]. split; [simpl; discriminate|].
    apply (removePlayer_armbands sampleState 3); simpl; discriminate.
Defined.

(** C9. The budget test of [canAddPlayer] compares [budget + teamValue] with
    [teamValue + now_cost]; the squad value cancels.  So the answer of
    [canAddPlayer] does not depend on the squad value at all, and a player
    whom the four membership rules let through is accepted exactly when the
    price is at most the bank. *)
Theorem canAddPlayer_budget_is_bank (s : TeamState) (p : Player.t) :
  (forall v, canAddPlayer (withTeamValue v s) p = canAddPlayer s p) /\
  (valid (canAddPlayer s p) = true <->
   ~ membershipRejects s p /\ Player.now_cost p <= budget s).
Proof.
  split.
  - intros v. unfold canAddPlayer, getPositionCount, getTeamPlayerCount. simpl.
    replace (budget s + v <? v + Player.now_cost p)
      with (budget s + teamValue s <? teamValue s + Player.now_cost p); [done|].
    destruct (Z.ltb_spec (budget s + teamValue s) (teamValue s + Player.now_cost p)),
             (Z.ltb_spec (budget s + v) (v + Player.now_cost p)); try done; lia.
  - rewrite canAddPlayer_valid. unfold rejects, overBudget. split.
    + intros H. split; [tauto|].
      destruct (Z.le_gt_cases (Player.now_cost p) (budget s)); [done|].
      exfalso. apply H. right. lia.
    + intros [H1 H2] [H|H]; [done|lia].
Qed.

(** C10. [getRemainingBudget] is [budget + (1000 - teamValue)] with the fixed
    ceiling 1000; hence it differs from the bank, which is the headroom that
    [canAddPlayer] enforces, whenever the squad value is not 1000. *)
Theorem getRemainingBudget_fixed_ceiling (s : TeamState) :
  getRemainingBudget s = budget s + (1000 - teamValue s) /\
  (teamValue s <> 1000 -> getRemainingBudget s <> budget s).
Proof. unfold getRemainingBudget. split; [done|lia]. Qed.

Lemma getRemainingBudget_fixed_ceiling_witness :
  teamValue sampleState <> 1000 /\
  getRemainingBudget sampleState <> budget sampleState.
Proof.
  split; [simpl; discriminate|].
  apply (getRemainingBudget_fixed_ceiling sampleState). simpl. discriminate.
Defined.

End TeamStoreFacts.

(** ** Point prediction *)

Module PredictionFacts.

Import Predictions ScoringRules Samples.

Local Open Scope Q_scope.

Lemma Qltb_lt (x y : Q) : JS.Qltb x y = true <-> x < y.
Proof.
  unfold JS.Qltb. rewrite negb_true_iff, <- not_true_iff_false, Qle_bool_iff.
  split; [apply Qnot_le_lt|apply Qlt_not_le].
Qed.

Lemma Qltb_ge (x y : Q) : JS.Qltb x y = false <-> y <= x.
Proof.
  unfold JS.Qltb. rewrite negb_false_iff. apply Qle_bool_iff.
Qed.

(** [Math.max(lo, Math.min(x, hi))] is the clamp of [x]. *)
Lemma max_min_clamp (lo hi x : Q) : lo <= hi -> Qmax lo (Qmin x hi) == clamp lo hi x.
Proof.
  intros Hlh. unfold clamp.
  destruct (JS.Qltb x lo) eqn:E1; [apply Qltb_lt in E1|apply Qltb_ge in E1].
  - rewrite (Q.min_l x hi) by lra. apply Q.max_l. lra.
  - destruct (JS.Qltb hi x) eqn:E2; [apply Qltb_lt in E2|apply Qltb_ge in E2].
    + rewrite (Q.min_r x hi) by lra. apply Q.max_r. lra.
    + rewrite (Q.min_l x hi) by lra. apply Q.max_r. lra.
Qed.

(** [Math.min(hi, Math.max(lo, x))] is the clamp of [x] as well. *)
Lemma min_max_clamp (lo hi x : Q) : lo <= hi -> Qmin hi (Qmax lo x) == clamp lo hi x.
Proof.
  intros Hlh. unfold clamp.
  destruct (JS.Qltb x lo) eqn:E1; [apply Qltb_lt in E1|apply Qltb_ge in E1].
  - rewrite (Q.max_l lo x) by lra. apply Q.min_r. lra.
  - rewrite (Q.max_r lo x) by lra.
    destruct (JS.Qltb hi x) eqn:E2; [apply Qltb_lt in E2|apply Qltb_ge in E2].
    + apply Q.min_l. lra.
    + apply Q.min_r. lra.
Qed.

Lemma clamp_inRange (lo hi x : Q) : lo <= hi -> inRange lo hi (clamp lo hi x).
Proof.
  intros Hlh. unfold clamp, inRange.
  destruct (JS.Qltb x lo) eqn:E1; [lra|apply Qltb_ge in E1].
  destruct (JS.Qltb hi x) eqn:E2; [lra|apply Qltb_ge in E2]. lra.
Qed.

Example parseFloat_decimal : JS.parseFloat "5.0" = Some (50 # 10).
Proof. reflexivity. Qed.

Example parseFloat_prefix : JS.parseFloat " -3.5e1pts" = Some (-350 # 10).
Proof. reflexivity. Qed.

Example parseFloat_nan : JS.parseFloat "n/a" = None.
Proof. reflexivity. Qed.

Example round_half_up : JS.round (5 # 2) = 3%Z /\ JS.round (-5 # 2) = (-2)%Z.
Proof. split; reflexivity. Qed.

(** The three ratio tests of [calculateMinutesCertaintyScore], on integers. *)
Lemma ratio_above (k m : Z) :
  JS.Qltb (k # 10) (inject_Z m / inject_Z (90 * 20))
  = (k * 10 * possibleMinutes <? 100 * m)%Z.
Proof.
  unfold JS.Qltb, Qle_bool, possibleMinutes. simpl.
  repeat match goal with
         | |- context [(?a <=? ?b)%Z] => destruct (Z.leb_spec0 a b)
         | |- context [(?a <? ?b)%Z] => destruct (Z.ltb_spec0 a b)
         end; simpl; try done; lia.
Qed.

Lemma ratio_below (k m : Z) :
  JS.Qltb (inject_Z m / inject_Z (90 * 20)) (k # 10)
  = (100 * m <? k * 10 * possibleMinutes)%Z.
Proof.
  unfold JS.Qltb, Qle_bool, possibleMinutes. simpl.
  repeat match goal with
         | |- context [(?a <=? ?b)%Z] => destruct (Z.leb_spec0 a b)
         | |- context [(?a <? ?b)%Z] => destruct (Z.ltb_spec0 a b)
         end; simpl; try done; lia.
Qed.

Lemma minutes_steps (score : Q) (m : Z) :
  (if JS.Qltb (8 # 10) (inject_Z m / inject_Z (90 * 20)) then score + 3
   else if JS.Qltb (6 # 10) (inject_Z m / inject_Z (90 * 20)) then score + 1
   else if JS.Qltb (inject_Z m / inject_Z (90 * 20)) (3 # 10) then score - 2
   else score) == score + minutesAdjustment m.
Proof.
  rewrite !ratio_above, ratio_below. unfold minutesAdjustment.
  change (8 * 10 * possibleMinutes)%Z with (80 * possibleMinutes)%Z.
  change (6 * 10 * possibleMinutes)%Z with (60 * possibleMinutes)%Z.
  change (3 * 10 * possibleMinutes)%Z with (30 * possibleMinutes)%Z.
  repeat case_match; lra.
Qed.

Lemma chance_steps (score : Q) (c : Z) :
  (let score := if (c <? 50)%Z then score - 2 else score in
   if (c <? 75)%Z then score - 1 else score)
  == score + chancePenalty (Some c).
Proof. cbv zeta. unfold chancePenalty. repeat case_match; lra. Qed.

(** What [calculateMinutesCertaintyScore] returns past the two early exits. *)
Lemma minutes_tail (st : Status) (chance : option Z) (m : Z) :
  let score0 := if bool_decide (st <> StA) then 5 - 3 else 5 in
  let score1 :=
    match chance with
    | Some c =>
        let score := if (c <? 50)%Z then score0 - 2 else score0 in
        if (c <? 75)%Z then score - 1 else score
    | None => score0
    end in
  let ratio := inject_Z m / inject_Z (90 * 20) in
  Qmax 0 (Qmin (if JS.Qltb (8 # 10) ratio then score1 + 3
                else if JS.Qltb (6 # 10) ratio then score1 + 1
                else if JS.Qltb ratio (3 # 10) then score1 - 2
                else score1) 10)
  == clamp 0 10 (5 + statusPenalty st + chancePenalty chance + minutesAdjustment m).
Proof.
  cbv zeta. rewrite max_min_clamp by lra.
  assert (Hc : forall x y, x == y -> clamp 0 10 x == clamp 0 10 y).
  { intros x y E. rewrite <- !max_min_clamp by lra. by rewrite E. }
  apply Hc. rewrite minutes_steps.
  apply Qplus_comp; [|reflexivity].
  assert (H0 : (if bool_decide (st <> StA) then 5 - 3 else 5) == 5 + statusPenalty st).
  { unfold statusPenalty. destruct st; simpl; lra. }
  destruct chance as [c|].
  - pose proof (chance_steps (if bool_decide (st <> StA) then 5 - 3 else 5) c) as Hs.
    cbv zeta in Hs. rewrite Hs, H0. unfold chancePenalty. lra.
  - rewrite H0. unfold chancePenalty. lra.
Qed.

(** C4, as claimed, fails.  The claim lists the chance thresholds and the
    minutes thresholds alike, and the code treats the two lists differently,
    so no uniform reading fits.  With both lists read as alternatives, an
    available player with a 25% chance and 900 minutes gets 5 - 2 = 3, the
    code gives 5 - 2 - 1 = 2.  With both lists read as accumulating, an
    available player with 1800 minutes gets 5 + 3 + 1 = 9, the code gives
    5 + 3 = 8. *)
Lemma minutesCertainty_claim_fails :
  ~ calculateMinutesCertaintyScore unlikelyStarter
    == claimedMinutesCertainty unlikelyStarter /\
  ~ calculateMinutesCertaintyScore everPresent
    == stackedMinutesCertainty everPresent.
Proof. split; vm_compute; discriminate. Qed.

(** C4, amended.  The minutes-certainty score of
    [calculateMinutesCertaintyScore] is 0 at once for an injured or suspended
    player and for a chance of playing of 0; otherwise it is 5, minus 3 when
    the status is not available, minus the chance penalties, which
    accumulate (below 50: the 2 and the 1, so 3; from 50 and below 75: 1),
    plus the minutes adjustment, which is one of alternatives (plus 3 above
    80% of 20 x 90 minutes, else plus 1 above 60%, else minus 2 below 30%),
    clamped to [0,10].  The result always lies in [0,10], and it is 0 for
    every injured player. *)
Theorem minutesCertainty_amended (p : Player.t) :
  calculateMinutesCertaintyScore p == minutesCertainty p /\
  inRange 0 10 (calculateMinutesCertaintyScore p) /\
  (Player.status p = StI -> calculateMinutesCertaintyScore p == 0).
Proof.
  assert (Hspec : calculateMinutesCertaintyScore p == minutesCertainty p).
  { destruct p as [i et tm st cost ppg fm chance m].
    destruct st, chance as [[|c|c]|]; try reflexivity;
      match goal with
      | |- context [Player.mk _ _ _ ?st _ _ _ ?ch ?m] => exact (minutes_tail st ch m)
      end. }
  split; [done|]. split.
  - unfold inRange. rewrite Hspec. unfold minutesCertainty.
    repeat case_match; try lra.
    apply clamp_inRange. lra.
  - intros Hi. rewrite Hspec. unfold minutesCertainty.
    rewrite bool_decide_eq_true_2 by (by left). reflexivity.
Qed.

Lemma minutesCertainty_amended_witness :
  Player.status injuredKeeper = StI /\
  calculateMinutesCertaintyScore injuredKeeper == 0.
Proof.
  split; [reflexivity|].
  apply (minutesCertainty_amended injuredKeeper). reflexivity.
Defined.

(** The fixture-difficulty score is clamped on both sides. *)
Lemma fixtureDifficulty_inRange (p : Player.t) (f : option Fixture.t)
    (teams : list Team.t) :
  inRange 0 10 (calculateFixtureDifficultyScore p f teams).
Proof.
  unfold calculateFixtureDifficultyScore, inRange.
  destruct f as [f|]; [|lra].
  destruct (findTeam teams (Player.team p)); [|lra]. cbv zeta.
  rewrite max_min_clamp by lra. apply clamp_inRange. lra.
Qed.

(** The form score is capped at 10 (and has no floor). *)
Lemma form_capped (p : Player.t) (h : option (list PlayerHistory.t)) :
  calculateFormScore p h <= 10.
Proof.
  unfold calculateFormScore. cbv zeta.
  destruct h as [[|g h]|]; apply Q.le_min_r.
Qed.

(** It can be negative: one match worth -3 points gives a form score of -3. *)
Example form_no_floor :
  calculateFormScore homeMidfielder (Some badMatch) == -3.
Proof. vm_compute. reflexivity. Qed.

(** The predicted points are the rounded weighted sum of the four factors. *)
Lemma predictedPoints_formula (p : Player.t) (f : option Fixture.t)
    (teams : list Team.t) (h : option (list PlayerHistory.t)) :
  PlayerPrediction.predictedPoints (predictPlayerPoints p f teams h)
  = predictedPoints (predictionFactors p f teams h).
Proof.
  unfold predictPlayerPoints, predictedPoints, JS.round. cbv zeta.
  cbn [PlayerPrediction.predictedPoints].
  apply Qfloor_comp.
  unfold WEIGHTS.form, WEIGHTS.fixtureDifficulty, WEIGHTS.homeAway,
    WEIGHTS.minutesCertainty.
  ring.
Qed.

(** C1 (the code departs from the claim).  For the midfielder above the
    home/away factor computed by [predictPlayerPoints] is 1200/140*10 = 600/7,
    about 85.7, which is not in [0,10]: the division by 140 does not bring a
    strength of 800..1400 into the range 0..10. *)
Theorem homeAway_factor_out_of_range :
  PredictionFactors.homeAway
    (predictionFactors homeMidfielder (Some homeFixture) [homeSide] None)
  == 600 # 7 /\
  ~ inRange 0 10
      (PredictionFactors.homeAway
         (predictionFactors homeMidfielder (Some homeFixture) [homeSide] None)).
Proof.
  split; [reflexivity|]. unfold inRange. intros [_ H]. vm_compute in H. by apply H.
Qed.

(** C2 (the code departs from the claim).  For the same input the predicted
    points are round(1.5 * (0.4*10 + 0.3*7 + 0.1*(600/7) + 0.2*8)) = 24,
    which lies outside [0,15]. *)
Theorem predictedPoints_out_of_range :
  PlayerPrediction.predictedPoints
    (predictPlayerPoints homeMidfielder (Some homeFixture) [homeSide] None) = 24%Z /\
  ~ (0 <= PlayerPrediction.predictedPoints
            (predictPlayerPoints homeMidfielder (Some homeFixture) [homeSide] None)
     <= 15)%Z.
Proof. split; [reflexivity|]. vm_compute. intros [_ H]. by apply H. Qed.

End PredictionFacts.

(** ** Transfer suggestions *)

Module TransferFacts.

Import TransferPlanner ScoringRules PredictionFacts Samples.

Local Open Scope Q_scope.

Section Sorting.

Context {A : Type} (cmp : A -> A -> Q).

Lemma sort_insert_elem (x y : A) (l : list A) :
  x ∈ sort_insert cmp y l <-> x = y \/ x ∈ l.
Proof.
  induction l as [|z l IH]; simpl.
  - rewrite list_elem_of_singleton, elem_of_nil. tauto.
  - destruct (JS.Qltb 0 (cmp y z)).
    + rewrite !elem_of_cons, IH. tauto.
    + rewrite !elem_of_cons. tauto.
Qed.

Lemma sort_elem (x : A) (l : list A) : x ∈ sort cmp l <-> x ∈ l.
Proof.
  unfold sort. induction l as [|y l IH]; simpl; [done|].
  rewrite sort_insert_elem, IH, elem_of_cons. tauto.
Qed.

(** Sorting only reorders. *)
Lemma sort_Permutation (l : list A) : sort cmp l ≡ₚ l.
Proof.
  unfold sort. induction l as [|y l IH]; simpl; [done|].
  rewrite <- IH at 2. generalize (foldr (sort_insert cmp) [] l). clear.
  intros k. induction k as [|z k IHk]; simpl; [done|].
  destruct (JS.Qltb 0 (cmp y z)); [|done].
  rewrite IHk. apply Permutation_swap.
Qed.

Lemma sort_length (l : list A) : length (sort cmp l) = length l.
Proof.
  unfold sort. induction l as [|y l IH]; simpl; [done|].
  rewrite <- IH. generalize (foldr (sort_insert cmp) [] l). clear.
  intros k. induction k as [|z k IHk]; simpl; [done|].
  destruct (JS.Qltb 0 (cmp y z)); simpl; [by rewrite IHk|done].
Qed.

Lemma sort_Forall (P : A -> Prop) (l : list A) :
  Forall P l -> Forall P (sort cmp l).
Proof.
  rewrite !Forall_forall. intros H x Hx. by apply H, sort_elem.
Qed.

End Sorting.

Lemma insert_descending (x : TransferSuggestion.t) (l : list TransferSuggestion.t) :
  descending l -> descending (sort_insert byGainDesc x l).
Proof.
  unfold descending. induction l as [|y l IH]; intros Hl; simpl.
  - repeat constructor.
  - apply StronglySorted_inv in Hl as [Hl Hy].
    destruct (JS.Qltb 0 (byGainDesc x y)) eqn:E.
    + apply Qltb_lt in E. unfold byGainDesc in E. fold (gain y) (gain x) in E.
      constructor; [by apply IH|].
      apply Forall_forall. intros z Hz. apply sort_insert_elem in Hz as [->|Hz].
      * lra.
      * by apply (proj1 (Forall_forall _ _) Hy).
    + apply Qltb_ge in E. unfold byGainDesc in E. fold (gain y) (gain x) in E.
      constructor; [by constructor|].
      constructor; [lra|].
      eapply Forall_impl; [exact Hy|]. simpl. intros z Hz. lra.
Qed.

Lemma sort_descending (l : list TransferSuggestion.t) :
  descending (sort byGainDesc l).
Proof.
  unfold sort. induction l as [|x l IH]; simpl.
  - constructor.
  - by apply insert_descending.
Qed.

Lemma take_descending (n : nat) (l : list TransferSuggestion.t) :
  descending l -> descending (take n l).
Proof.
  unfold descending. intros H. rewrite <- (take_drop n l) in H.
  by apply StronglySorted_app_1_l in H.
Qed.

(** Everything the loops push has a gain above 5. *)
Lemma pushesFor_gain ids counts budget allPlayers playerOut :
  Forall (fun sg => 5 < gain sg) (pushesFor ids counts budget allPlayers playerOut).
Proof.
  unfold pushesFor. cbv zeta. apply Forall_forall. intros sg Hsg.
  apply list_elem_of_In, filter_In in Hsg as [_ Hsg]. by apply Qltb_lt.
Qed.

(** Every pushed suggestion is the scored pair of a squad member and a pool
    player. *)
Lemma pushesFor_pair ids counts budget allPlayers playerOut sg :
  sg ∈ pushesFor ids counts budget allPlayers playerOut ->
  exists playerIn, playerIn ∈ allPlayers /\ sg = scorePair playerOut playerIn.
Proof.
  unfold pushesFor. cbv zeta. intros Hsg.
  apply list_elem_of_In, filter_In in Hsg as [Hsg _].
  apply in_map_iff in Hsg as (c & <- & Hc).
  exists c. split; [|done].
  apply list_elem_of_In in Hc. apply subseteq_take in Hc.
  apply list_elem_of_In, filter_In in Hc as [Hc _]. by apply list_elem_of_In.
Qed.

Lemma suggestions_pair teamPlayers allPlayers budget sg :
  sg ∈ suggestions teamPlayers allPlayers budget ->
  exists playerOut playerIn,
    playerOut ∈ teamPlayers /\ playerIn ∈ allPlayers /\
    sg = scorePair playerOut playerIn.
Proof.
  unfold suggestions. cbv zeta. intros Hsg.
  apply subseteq_take, sort_elem in Hsg.
  apply list_elem_of_In, in_flat_map in Hsg as (o & Ho & Hsg).
  apply list_elem_of_In, pushesFor_pair in Hsg as (c & Hc & ->).
  exists o, c. split; [by apply list_elem_of_In|done].
Qed.

(** C3, as claimed, fails: with two equally good replacements the list holds
    two suggestions of the same expected gain (8.4), so it is not strictly
    descending. *)
Lemma suggestions_not_strict :
  ~ strictRanking (suggestions [squadMid] [poolMidA; poolMidB] 0).
Proof.
  intros (_ & H & _). unfold strictlyDescending in H.
  vm_compute in H. apply Sorted_inv in H as [_ H].
  apply HdRel_inv in H. vm_compute in H. discriminate.
Qed.

(** C3, amended.  For every squad, pool and budget the suggestion list holds
    only pairs with an expected gain above 5, is sorted by expected gain in
    descending order (equal gains may follow each other), and has at most 9
    entries overall. *)
Theorem suggestions_ranking (teamPlayers allPlayers : list Player.t) (budget : Z) :
  ranking (suggestions teamPlayers allPlayers budget).
Proof.
  unfold ranking, suggestions. cbv zeta. split; [|split].
  - apply Forall_take, sort_Forall, Forall_flat_map, Forall_forall.
    intros o _. apply pushesFor_gain.
  - apply take_descending, sort_descending.
  - rewrite length_take. lia.
Qed.

Lemma scorePair_scoredAs (o i : Player.t) : scoredAs o i (scorePair o i).
Proof.
  unfold scoredAs, gain, scorePair. cbv zeta.
  cbn [TransferSuggestion.metrics TransferSuggestion.expectedGain
       Metrics.base Metrics.mins Metrics.fixt Metrics.form].
  fold (formOf i) (formOf o) (ppgOf i) (ppgOf o).
  assert (Hcl : forall x y, x == y -> Qmin 100 (Qmax 0 x) == clamp 0 100 y).
  { intros x y E. rewrite <- min_max_clamp by lra. by rewrite E. }
  split; [apply Hcl; ring|].
  split; [reflexivity|]. split; [reflexivity|].
  split; [apply Hcl; ring|].
  field.
Qed.

(** C5.  Every pair the scorer scores gets base = clamp(0,100, 50 + 10 (ppgIn -
    ppgOut)), minutes score 80 for an available incoming player and 40
    otherwise, the constant fixture score 70, form = clamp(0,100, 50 + 20
    (formIn - formOut)) and expected gain (0.3 base + 0.2 minutes + 0.2
    fixture + 0.3 form) / 10; and every suggestion of the returned list is
    such a scored pair of a squad member and a pool player. *)
Theorem suggestion_scores :
  (forall o i : Player.t,
     TransferSuggestion.playerOut (scorePair o i) = o /\
     TransferSuggestion.playerIn (scorePair o i) = i /\
     scoredAs o i (scorePair o i)) /\
  (forall teamPlayers allPlayers budget (sg : TransferSuggestion.t),
     sg ∈ suggestions teamPlayers allPlayers budget ->
     TransferSuggestion.playerOut sg ∈ teamPlayers /\
     TransferSuggestion.playerIn sg ∈ allPlayers /\
     scoredAs (TransferSuggestion.playerOut sg) (TransferSuggestion.playerIn sg) sg).
Proof.
  split.
  - intros o i. split; [done|]. split; [done|]. apply scorePair_scoredAs.
  - intros teamPlayers allPlayers budget sg Hsg.
    apply suggestions_pair in Hsg as (o & c & Ho & Hc & ->).
    split; [done|]. split; [done|]. apply scorePair_scoredAs.
Qed.

Lemma suggestion_scores_witness :
  scorePair squadMid poolMidA ∈ suggestions [squadMid] [poolMidA; poolMidB] 0 /\
  scoredAs squadMid poolMidA (scorePair squadMid poolMidA).
Proof.
  assert (Hin : scorePair squadMid poolMidA
                ∈ suggestions [squadMid] [poolMidA; poolMidB] 0).
  { vm_compute. apply list_elem_of_here. }
  split; [exact Hin|].
  apply (proj2 suggestion_scores [squadMid] [poolMidA; poolMidB] 0%Z _ Hin).
Defined.

End TransferFacts.

(** ** Squad store: further properties *)

Module SquadShapeFacts.

Import TeamStore SquadRules TeamStoreOps SquadShape TeamStoreFacts.

Section Counting.

Context (P : Player.t -> Prop) `{forall p, Decision (P p)}.

Lemma countWhere_snoc (ps : list Player.t) (p : Player.t) :
  countWhere P (ps ++ [p])
  = (countWhere P ps + (if decide (P p) then 1 else 0))%nat.
Proof.
  unfold countWhere. rewrite filter_app, length_app. f_equal.
  rewrite filter_cons, filter_nil. by destruct (decide (P p)).
Qed.

Lemma countWhere_filter (Q : Player.t -> Prop) `{forall p, Decision (Q p)}
    (ps : list Player.t) :
  (countWhere P (filter Q ps) <= countWhere P ps)%nat.
Proof.
  unfold countWhere. induction ps as [|p ps IH]; [done|].
  rewrite (filter_cons Q), (filter_cons P).
  destruct (decide (Q p)), (decide (P p)).
  - rewrite filter_cons_True by done. simpl. lia.
  - by rewrite filter_cons_False by done.
  - simpl. lia.
  - done.
Qed.

End Counting.

Lemma NoDup_ids_filter (Q : Player.t -> Prop) `{forall p, Decision (Q p)}
    (ps : list Player.t) :
  NoDup (map Player.id ps) -> NoDup (map Player.id (filter Q ps)).
Proof.
  induction ps as [|p ps IH]; simpl; [done|].
  rewrite NoDup_cons. intros [Hp Hps]. rewrite filter_cons.
  destruct (decide (Q p)); [|by apply IH]. simpl. apply NoDup_cons.
  split; [|by apply IH].
  intros Hin. apply Hp. apply list_elem_of_In, in_map_iff in Hin as (r & Hr & Hin).
  apply list_elem_of_In, in_map_iff. exists r. split; [done|].
  apply list_elem_of_In. apply list_elem_of_In in Hin.
  by apply list_elem_of_filter in Hin as [_ ?].
Qed.

Lemma member_ids (s : TeamState) (i : Z) :
  member s i <-> i ∈ map Player.id (players s).
Proof.
  unfold member. split.
  - intros (p & Hin & <-). apply list_elem_of_In, in_map, list_elem_of_In, Hin.
  - intros Hin. apply list_elem_of_In, in_map_iff in Hin as (p & Hp & Hin).
    exists p. split; [by apply list_elem_of_In|done].
Qed.

Lemma wellFormed_initial : wellFormed initialState.
Proof.
  unfold wellFormed, countWhere. simpl.
  split; [lia|]. split; [constructor|]. split; [intros; lia|]. split; [intros; lia|done].
Qed.

Lemma wellFormed_addPlayer (s : TeamState) (p : Player.t) :
  wellFormed s -> wellFormed (addPlayer s p).
Proof.
  intros (Hlen & Hnd & Hq & Hc & Hv). unfold addPlayer. cbv zeta.
  pose proof (canAddPlayer_decides s p) as Hdec.
  destruct (valid (canAddPlayer s p)); simpl; [|done].
  unfold rejects, membershipRejects, squadFull, quotaMet, clubFull in Hdec.
  unfold wellFormed. simpl.
  split; [rewrite length_app; simpl; lia|].
  split.
  { rewrite map_app. apply NoDup_app. split; [done|]. split.
    - intros i Hi Hp. simpl in Hp. apply list_elem_of_singleton in Hp. subst i.
      apply Hdec. left. right. left. by apply member_ids.
    - simpl. apply NoDup_singleton. }
  split.
  { intros et pos Hpos. rewrite countWhere_snoc.
    destruct (decide (Player.element_type p = et)) as [<-|_]; [|rewrite Nat.add_0_r; eauto].
    destruct (le_lt_dec (quota pos)
                (countWhere (fun q => Player.element_type q = Player.element_type p)
                   (players s))) as [Hge|Hlt]; [|lia].
    exfalso. apply Hdec. left. right. right. left. eauto. }
  split.
  { intros club. rewrite countWhere_snoc.
    destruct (decide (Player.team p = club)) as [<-|_]; [|rewrite Nat.add_0_r; eauto].
    destruct (le_lt_dec 3 (countWhere (fun q => Player.team q = Player.team p) (players s)))
      as [Hge|Hlt]; [|lia].
    exfalso. apply Hdec. left. right. right. right. lia. }
  apply sumCost_totalPrice.
Qed.

Lemma wellFormed_removePlayer (s : TeamState) (i : Z) :
  wellFormed s -> wellFormed (removePlayer s i).
Proof.
  intros (Hlen & Hnd & Hq & Hc & Hv). unfold removePlayer, wellFormed. simpl.
  split; [etrans; [apply length_filter|done]|].
  split; [by apply NoDup_ids_filter|].
  split.
  { intros et pos Hpos. etrans; [apply countWhere_filter|eauto]. }
  split.
  { intros club. etrans; [apply countWhere_filter|eauto]. }
  apply sumCost_totalPrice.
Qed.

Lemma wellFormed_setCaptain (s : TeamState) (i : Z) :
  wellFormed s -> wellFormed (setCaptain s i).
Proof. unfold setCaptain. by destruct (find _ _). Qed.

Lemma wellFormed_setViceCaptain (s : TeamState) (i : Z) :
  wellFormed s -> wellFormed (setViceCaptain s i).
Proof. unfold setViceCaptain. destruct (find _ _); [|done]. by destruct (is_id _ _). Qed.

Lemma wellFormed_exec (s : TeamState) (c : Command) :
  wellFormed s -> wellFormed (exec s c).
Proof.
  destruct c as [[p|i|i|i|]| | |]; simpl; try done.
  - apply wellFormed_addPlayer.
  - apply wellFormed_removePlayer.
  - apply wellFormed_setCaptain.
  - apply wellFormed_setViceCaptain.
  - intros _. apply wellFormed_initial.
Qed.

Lemma armbandsOk_exec (s : TeamState) (c : Command) :
  armbandsOk s -> armbandsOk (exec s c).
Proof.
  destruct c as [a| | |]; simpl; try done. apply armbandsOk_step.
Qed.

Lemma execAll_invariant (I : TeamState -> Prop) :
  I initialState -> (forall s c, I s -> I (exec s c)) ->
  forall cs, I (execAll cs).
Proof.
  intros H0 Hstep cs. unfold execAll. generalize initialState H0.
  induction cs as [|c cs IH]; intros s Hs; simpl; [done|]. by apply IH, Hstep.
Qed.

Lemma wellFormed_execAll (cs : list Command) : wellFormed (execAll cs).
Proof.
  apply (execAll_invariant wellFormed); [apply wellFormed_initial|apply wellFormed_exec].
Qed.

(** Squads of sixteen cannot be built, whatever the commands: the squad
    keeps at most 15 members with pairwise different ids, no position exceeds
    its quota 2/5/5/3, no club has more than three members, the squad value is
    the sum of the member prices, and the captaincy invariant holds, after
    any sequence of synchronous mutations (the five of C7 and [setFormation],
    [updateBudget], [resetError]). *)
Theorem squad_shape_invariant (cs : list Command) :
  wellFormed (execAll cs) /\ armbandsOk (execAll cs).
Proof.
  split; [apply wellFormed_execAll|].
  apply (execAll_invariant armbandsOk); [apply armbandsOk_initial|apply armbandsOk_exec].
Qed.

Lemma length_by_type (ps : list Player.t) :
  Forall (fun p => 1 <= Player.element_type p <= 4) ps ->
  length ps
  = (countWhere (fun q => Player.element_type q = 1%Z) ps
     + countWhere (fun q => Player.element_type q = 2%Z) ps
     + countWhere (fun q => Player.element_type q = 3%Z) ps
     + countWhere (fun q => Player.element_type q = 4%Z) ps)%nat.
Proof.
  unfold countWhere. induction 1 as [|p ps Hp _ IH]; [done|].
  rewrite !filter_cons. simpl. rewrite IH.
  repeat case_decide; simpl; lia.
Qed.

(** A squad of 15 built through the store is complete in the sense of
    [isTeamComplete]: when all its members have one of the four position
    codes it has exactly 2 goalkeepers, 5 defenders, 5 midfielders and 3
    forwards. *)
Theorem full_squad_is_complete (cs : list Command) :
  length (players (execAll cs)) = 15%nat ->
  Forall (fun p => 1 <= Player.element_type p <= 4) (players (execAll cs)) ->
  Utils.isTeamComplete (players (execAll cs)) = true.
Proof.
  intros Hlen Hty.
  destruct (wellFormed_execAll cs) as (_ & _ & Hq & _).
  pose proof (Hq 1 GK eq_refl) as H1. pose proof (Hq 2 DEF eq_refl) as H2.
  pose proof (Hq 3 MID eq_refl) as H3. pose proof (Hq 4 FWD eq_refl) as H4.
  pose proof (length_by_type _ Hty) as Hsum. simpl in H1, H2, H3, H4.
  unfold Utils.isTeamComplete, Utils.countType. unfold countWhere in *.
  rewrite Hlen. simpl.
  rewrite !andb_true_iff, !Z.eqb_eq. lia.
Qed.

Lemma full_squad_is_complete_witness :
  length (players (execAll MoreSamples.buildFullSquad)) = 15%nat /\
  Forall (fun p => 1 <= Player.element_type p <= 4)
         (players (execAll MoreSamples.buildFullSquad)) /\
  Utils.isTeamComplete (players (execAll MoreSamples.buildFullSquad)) = true.
Proof.
  assert (Hl : length (players (execAll MoreSamples.buildFullSquad)) = 15%nat)
    by reflexivity.
  assert (Ht : Forall (fun p => 1 <= Player.element_type p <= 4)
                      (players (execAll MoreSamples.buildFullSquad))).
  { vm_compute. repeat constructor; discriminate. }
  split; [exact Hl|]. split; [exact Ht|].
  exact (full_squad_is_complete MoreSamples.buildFullSquad Hl Ht).
Defined.

Lemma filter_out_last (ps : list Player.t) (p : Player.t) :
  Player.id p ∉ map Player.id ps ->
  filter (fun q => Player.id q <> Player.id p) (ps ++ [p]) = ps.
Proof.
  intros Hnot. rewrite filter_app, filter_cons_False, filter_nil, app_nil_r by tauto.
  induction ps as [|q ps IH]; [done|].
  simpl in Hnot. apply not_elem_of_cons in Hnot as [Hq Hps].
  rewrite filter_cons_True by done. by rewrite IH.
Qed.

Lemma clear_if_other (i : Z) (o : option Z) :
  o <> Some i -> clear_if i o = o.
Proof.
  destruct o as [c|]; simpl; [|done]. intros Hne.
  destruct (Z.eqb_spec c i); [congruence|done].
Qed.

(** Adding a player and removing him again restores the squad: when
    [addPlayer] accepts the player, a following [removePlayer] of his id
    gives back the same members in the same order and the same captain and
    vice-captain; the squad value is then the sum of the member prices. *)
Theorem add_then_remove (s : TeamState) (p : Player.t) :
  armbandsOk s -> ~ rejects s p ->
  let s' := removePlayer (addPlayer s p) (Player.id p) in
  players s' = players s /\ captain s' = captain s /\
  viceCaptain s' = viceCaptain s /\ teamValue s' = totalPrice (players s) /\
  budget s' = budget s /\ error s' = None.
Proof.
  intros (Hc & Hv & _) Hrej. cbv zeta.
  assert (Hnm : ~ member s (Player.id p)).
  { intros Hm. apply Hrej. left. right. by left. }
  apply canAddPlayer_valid in Hrej. unfold addPlayer. cbv zeta. rewrite Hrej. simpl.
  unfold removePlayer. simpl.
  rewrite filter_out_last by (by rewrite <- member_ids).
  repeat split.
  - apply clear_if_other. intros E. by apply Hnm, Hc.
  - apply clear_if_other. intros E. by apply Hnm, Hv.
  - apply sumCost_totalPrice.
Qed.

Lemma add_then_remove_witness :
  armbandsOk Samples.sampleState /\ ~ rejects Samples.sampleState MoreSamples.newcomer /\
  players (removePlayer (addPlayer Samples.sampleState MoreSamples.newcomer) 77)
  = players Samples.sampleState.
Proof.
  assert (Ha : armbandsOk Samples.sampleState).
  { split; [|split]; simpl.
    - intros c [= <-]. exists Samples.sampleA. split; [apply list_elem_of_here|done].
    - intros v [= <-]. exists Samples.sampleB.
      split; [apply list_elem_of_further, list_elem_of_here|done].
    - intros c v [= <-] [= <-]. discriminate. }
  assert (Hr : ~ rejects Samples.sampleState MoreSamples.newcomer).
  { apply canAddPlayer_valid. reflexivity. }
  split; [exact Ha|]. split; [exact Hr|].
  apply (add_then_remove Samples.sampleState MoreSamples.newcomer Ha Hr).
Defined.

(** [removePlayer] really removes and is idempotent: afterwards nobody in
    the squad has the removed id, and removing the same id again changes
    nothing. *)
Theorem removePlayer_idempotent (s : TeamState) (i : Z) :
  ~ member (removePlayer s i) i /\
  removePlayer (removePlayer s i) i = removePlayer s i.
Proof.
  split.
  - intros (q & Hin & Hq). unfold removePlayer in Hin. simpl in Hin.
    by apply list_elem_of_filter in Hin as [Hne _].
  - unfold removePlayer, set_armbands, set_squad. simpl.
    assert (Hf : filter (fun q => Player.id q <> i)
                   (filter (fun q => Player.id q <> i) (players s))
                 = filter (fun q => Player.id q <> i) (players s)).
    { by apply list_filter_filter_l. }
    assert (Hcl : forall o, clear_if i (clear_if i o) = clear_if i o).
    { intros [c|]; simpl; [|done]. destruct (c =? i) eqn:E; simpl; [done|by rewrite E]. }
    by rewrite Hf, !Hcl.
Qed.

Lemma find_none_member (s : TeamState) (i : Z) :
  find (fun p => Player.id p =? i) (players s) = None <-> ~ member s i.
Proof.
  split.
  - intros Hf (p & Hin & Hp). apply list_elem_of_In in Hin.
    pose proof (find_none _ _ Hf p Hin) as Hn. simpl in Hn. lia.
  - intros Hn. destruct (find _ _) as [p|] eqn:Hf; [|done].
    exfalso. by apply Hn, (find_member s i p).
Qed.

(** The armband goes to squad members only.  For a member, [setCaptain]
    makes him captain, takes the vice-captaincy from him if he had it and
    leaves the squad alone; for anybody else it only records "Player not in
    team", and so does [setViceCaptain]. *)
Theorem captaincy_members_only (s : TeamState) (i : Z) :
  (member s i ->
   captain (setCaptain s i) = Some i /\
   viceCaptain (setCaptain s i) = clear_if i (viceCaptain s) /\
   viceCaptain (setCaptain s i) <> Some i /\
   players (setCaptain s i) = players s /\ error (setCaptain s i) = None) /\
  (~ member s i ->
   setCaptain s i = set_error (Some "Player not in team") s /\
   setViceCaptain s i = set_error (Some "Player not in team") s).
Proof.
  split.
  - intros Hm. unfold setCaptain.
    destruct (find _ _) as [p|] eqn:Hf; [|by apply find_none_member in Hf].
    simpl. repeat split; try done.
    intros E. apply clear_if_spec in E as [_ E]. done.
  - intros Hn. apply find_none_member in Hn.
    unfold setCaptain, setViceCaptain. by rewrite Hn.
Qed.

Lemma captaincy_members_only_witness :
  (member Samples.sampleState 2 /\
   captain (setCaptain Samples.sampleState 2) = Some 2 /\
   viceCaptain (setCaptain Samples.sampleState 2) = None) /\
  (~ member Samples.sampleState 9 /\
   error (setCaptain Samples.sampleState 9) = Some "Player not in team").
Proof.
  assert (Hm : member Samples.sampleState 2).
  { exists Samples.sampleB. split; [apply list_elem_of_further, list_elem_of_here|done]. }
  assert (Hn : ~ member Samples.sampleState 9).
  { apply find_none_member. reflexivity. }
  split.
  - split; [exact Hm|].
    destruct (proj1 (captaincy_members_only Samples.sampleState 2) Hm)
      as (Hc & Hv & _). split; [exact Hc|]. rewrite Hv. reflexivity.
  - split; [exact Hn|].
    destruct (proj2 (captaincy_members_only Samples.sampleState 9) Hn) as [Hc _].
    rewrite Hc. reflexivity.
Defined.

(** A captain cannot be made his own deputy: right after a member was made
    captain, [setViceCaptain] for the same id only records "Captain cannot be
    vice-captain" and changes nothing else. *)
Theorem vice_refused_for_captain (s : TeamState) (i : Z) :
  member s i ->
  setViceCaptain (setCaptain s i) i
  = set_error (Some "Captain cannot be vice-captain") (setCaptain s i).
Proof.
  intros Hm. unfold setCaptain.
  destruct (find _ _) as [p|] eqn:Hf; [|by apply find_none_member in Hf].
  unfold setViceCaptain. simpl. rewrite Hf. simpl. by rewrite Z.eqb_refl.
Qed.

Lemma vice_refused_for_captain_witness :
  member Samples.sampleState 3 /\
  error (setViceCaptain (setCaptain Samples.sampleState 3) 3)
  = Some "Captain cannot be vice-captain".
Proof.
  assert (Hm : member Samples.sampleState 3).
  { exists Samples.sampleC.
    split; [do 2 apply list_elem_of_further; apply list_elem_of_here|done]. }
  split; [exact Hm|].
  rewrite (vice_refused_for_captain Samples.sampleState 3 Hm). reflexivity.
Defined.

(** The two budget helpers agree on squads built through the store:
    [getRemainingBudget] is the bank plus what [calculateRemainingBudget]
    leaves of 1000 after the member prices. *)
Theorem remaining_budget_agrees (cs : list Command) :
  getRemainingBudget (execAll cs)
  = budget (execAll cs)
    + Utils.calculateRemainingBudget (players (execAll cs)) 1000.
Proof.
  destruct (wellFormed_execAll cs) as (_ & _ & _ & _ & Hv).
  unfold getRemainingBudget, Utils.calculateRemainingBudget. cbv zeta.
  rewrite Hv, foldl_cost_acc. lia.
Qed.

End SquadShapeFacts.

(** ** Loading a squad *)

Module LoadTeamFacts.

Import TeamStore SquadRules TeamStoreOps TeamStoreFacts.

Lemma resolvePicks_elem (picks : list TeamPick.t) (pool : list Player.t) (p : Player.t) :
  p ∈ resolvePicks picks pool ->
  p ∈ pool /\ exists pk, pk ∈ picks /\ TeamPick.element pk = Player.id p.
Proof.
  unfold resolvePicks. intros (pk & Hpk & Hf)%list_elem_of_omap.
  apply find_some in Hf as [Hin Hid]. split; [by apply list_elem_of_In|].
  exists pk. split; [done|lia].
Qed.

Lemma resolvePicks_length (picks : list TeamPick.t) (pool : list Player.t) :
  (length (resolvePicks picks pool) <= length picks)%nat.
Proof.
  unfold resolvePicks. induction picks as [|pk picks IH]; [done|].
  cbn. destruct (find _ _); cbn; lia.
Qed.

Lemma resolvePicks_ids (picks : list TeamPick.t) (pool : list Player.t) :
  (forall pk, pk ∈ picks -> exists p, p ∈ pool /\ Player.id p = TeamPick.element pk) ->
  map Player.id (resolvePicks picks pool) = map TeamPick.element picks.
Proof.
  unfold resolvePicks. induction picks as [|pk picks IH]; intros Hall; [done|].
  cbn. destruct (find _ _) as [p|] eqn:Hf.
  - apply find_some in Hf as [_ Hid]. apply Z.eqb_eq in Hid. cbn. f_equal; [done|].
    apply IH. intros pk' Hpk'. apply Hall. by apply list_elem_of_further.
  - exfalso. destruct (Hall pk) as (p & Hin & Hid); [apply list_elem_of_here|].
    apply list_elem_of_In in Hin. pose proof (find_none _ _ Hf p Hin) as Hn.
    simpl in Hn. lia.
Qed.

Lemma element_or_null_pick (P : TeamPick.t -> bool) (picks : list TeamPick.t) (c : Z) :
  element_or_null (find P picks) = Some c ->
  c <> 0 /\ exists pk, pk ∈ picks /\ P pk = true /\ TeamPick.element pk = c.
Proof.
  destruct (find P picks) as [pk|] eqn:Hf; simpl; [|done].
  destruct (Z.eqb_spec (TeamPick.element pk) 0); [done|]. intros [= <-].
  apply find_some in Hf as [Hin HP]. split; [done|].
  exists pk. split; [by apply list_elem_of_In|done].
Qed.

(** What a successful [loadTeamById] leaves in the store: every member is a
    pool player named by one of the picks (picks the pool does not know are
    dropped, so there are at most as many members as picks), the squad value
    is the sum of the member prices, the bank is the one of the entry, the
    formation is kept, and the loading flag and the error are cleared. *)
Theorem loaded_squad (s : TeamState) (teamId : Z) (resp : ManagerTeamData.t)
    (pool : list Player.t) :
  let s' := loadTeamById_resolved s teamId resp pool in
  let picks := FPLTeamData.picks (ManagerTeamData.picks resp) in
  (forall p, p ∈ players s' ->
     p ∈ pool /\ exists pk, pk ∈ picks /\ TeamPick.element pk = Player.id p) /\
  (length (players s') <= length picks)%nat /\
  teamValue s' = totalPrice (players s') /\
  budget s' = EntryHistory.bank (FPLTeamData.entry_history (ManagerTeamData.picks resp)) /\
  formation s' = formation s /\ isLoading s' = false /\ error s' = None.
Proof.
  cbv zeta. unfold loadTeamById_resolved. cbv zeta. simpl.
  split; [intros p; apply resolvePicks_elem|].
  split; [apply resolvePicks_length|].
  split; [apply sumCost_totalPrice|done].
Qed.

Lemma find_firstFlagged (flag : TeamPick.t -> bool) (picks : list TeamPick.t)
    (pk : TeamPick.t) :
  PickRules.firstFlagged flag picks pk -> find flag picks = Some pk.
Proof.
  intros (before & after & -> & Hpk & Hbefore).
  induction Hbefore as [|q before Hq _ IH]; simpl; [by rewrite Hpk|by rewrite Hq].
Qed.

Lemma find_noneFlagged (flag : TeamPick.t -> bool) (picks : list TeamPick.t) :
  PickRules.noneFlagged flag picks -> find flag picks = None.
Proof.
  induction 1 as [|q picks Hq _ IH]; simpl; [done|by rewrite Hq].
Qed.

Lemma element_or_null_armband (pk : TeamPick.t) :
  element_or_null (Some pk) = PickRules.armbandOf pk.
Proof.
  unfold element_or_null, PickRules.armbandOf.
  destruct (Z.eqb_spec (TeamPick.element pk) 0); by case_decide.
Qed.

(** When the pool knows every pick, the loaded squad lists the picked ids in
    pick order, and the armbands are loaded from the flags: the captain is
    the id of the first pick flagged captain (none when that id is 0, none
    when no pick is flagged), the vice-captain likewise from the first pick
    flagged vice-captain, and a captain or vice-captain that was loaded is a
    squad member with a non-zero id. *)
Theorem loaded_squad_complete (s : TeamState) (teamId : Z) (resp : ManagerTeamData.t)
    (pool : list Player.t) :
  let s' := loadTeamById_resolved s teamId resp pool in
  let picks := FPLTeamData.picks (ManagerTeamData.picks resp) in
  (forall pk, pk ∈ picks -> exists p, p ∈ pool /\ Player.id p = TeamPick.element pk) ->
  map Player.id (players s') = map TeamPick.element picks /\
  (forall pk, PickRules.firstFlagged TeamPick.is_captain picks pk ->
     captain s' = PickRules.armbandOf pk) /\
  (PickRules.noneFlagged TeamPick.is_captain picks -> captain s' = None) /\
  (forall pk, PickRules.firstFlagged TeamPick.is_vice_captain picks pk ->
     viceCaptain s' = PickRules.armbandOf pk) /\
  (PickRules.noneFlagged TeamPick.is_vice_captain picks -> viceCaptain s' = None) /\
  (forall c, captain s' = Some c -> c <> 0 /\ member s' c) /\
  (forall v, viceCaptain s' = Some v -> v <> 0 /\ member s' v).
Proof.
  cbv zeta. intros Hall.
  pose proof (resolvePicks_ids _ _ Hall) as Hids.
  assert (Hmem : forall (P : TeamPick.t -> bool) c,
            element_or_null (find P (FPLTeamData.picks (ManagerTeamData.picks resp)))
            = Some c ->
            c <> 0 /\ member (loadTeamById_resolved s teamId resp pool) c).
  { intros P c Hc. apply element_or_null_pick in Hc as (Hnz & pk & Hin & _ & Hel).
    split; [done|]. apply SquadShapeFacts.member_ids.
    unfold loadTeamById_resolved. cbv zeta. simpl. rewrite Hids.
    apply list_elem_of_In, in_map_iff. exists pk. split; [done|by apply list_elem_of_In]. }
  assert (Hfirst : forall (P : TeamPick.t -> bool) pk,
            PickRules.firstFlagged P (FPLTeamData.picks (ManagerTeamData.picks resp)) pk ->
            element_or_null (find P (FPLTeamData.picks (ManagerTeamData.picks resp)))
            = PickRules.armbandOf pk).
  { intros P pk Hpk. rewrite (find_firstFlagged _ _ _ Hpk).
    apply element_or_null_armband. }
  assert (Hnone : forall (P : TeamPick.t -> bool),
            PickRules.noneFlagged P (FPLTeamData.picks (ManagerTeamData.picks resp)) ->
            element_or_null (find P (FPLTeamData.picks (ManagerTeamData.picks resp)))
            = None).
  { intros P HP. by rewrite (find_noneFlagged _ _ HP). }
  split; [exact Hids|].
  split; [intros pk; apply (Hfirst TeamPick.is_captain)|].
  split; [apply (Hnone TeamPick.is_captain)|].
  split; [intros pk; apply (Hfirst TeamPick.is_vice_captain)|].
  split; [apply (Hnone TeamPick.is_vice_captain)|].
  split; intros c Hc.
  - by apply (Hmem TeamPick.is_captain c).
  - by apply (Hmem TeamPick.is_vice_captain c).
Qed.

Lemma loaded_squad_complete_witness :
  (forall pk, pk ∈ MoreSamples.samplePicks ->
     exists p, p ∈ players Samples.sampleState /\ Player.id p = TeamPick.element pk) /\
  PickRules.firstFlagged TeamPick.is_captain MoreSamples.samplePicks
    (TeamPick.mk 1 true false) /\
  PickRules.firstFlagged TeamPick.is_vice_captain MoreSamples.samplePicks
    (TeamPick.mk 2 false true) /\
  map Player.id
    (players (loadTeamById_resolved initialState 5 MoreSamples.sampleResponse
                (players Samples.sampleState)))
  = [1; 2; 3] /\
  captain (loadTeamById_resolved initialState 5 MoreSamples.sampleResponse
             (players Samples.sampleState)) = Some 1 /\
  viceCaptain (loadTeamById_resolved initialState 5 MoreSamples.sampleResponse
                 (players Samples.sampleState)) = Some 2.
Proof.
  assert (Hall : forall pk, pk ∈ MoreSamples.samplePicks ->
            exists p, p ∈ players Samples.sampleState
                      /\ Player.id p = TeamPick.element pk).
  { intros pk Hpk. unfold MoreSamples.samplePicks in Hpk.
    apply elem_of_cons in Hpk as [->|Hpk];
      [exists Samples.sampleA; split; [apply list_elem_of_here|done]|].
    apply elem_of_cons in Hpk as [->|Hpk];
      [exists Samples.sampleB;
       split; [apply list_elem_of_further, list_elem_of_here|done]|].
    apply list_elem_of_singleton in Hpk as ->.
    exists Samples.sampleC.
    split; [do 2 apply list_elem_of_further; apply list_elem_of_here|done]. }
  assert (Hc : PickRules.firstFlagged TeamPick.is_captain MoreSamples.samplePicks
                 (TeamPick.mk 1 true false)).
  { exists [], [TeamPick.mk 2 false true; TeamPick.mk 3 false false].
    split; [reflexivity|]. split; [reflexivity|constructor]. }
  assert (Hv : PickRules.firstFlagged TeamPick.is_vice_captain MoreSamples.samplePicks
                 (TeamPick.mk 2 false true)).
  { exists [TeamPick.mk 1 true false], [TeamPick.mk 3 false false].
    split; [reflexivity|]. split; [reflexivity|repeat constructor]. }
  destruct (loaded_squad_complete initialState 5 MoreSamples.sampleResponse
              (players Samples.sampleState) Hall)
    as (Hids & Hcap & _ & Hvice & _).
  split; [exact Hall|]. split; [exact Hc|]. split; [exact Hv|].
  split; [exact Hids|]. split.
  - rewrite (Hcap _ Hc). reflexivity.
  - rewrite (Hvice _ Hv). reflexivity.
Defined.

(** A load that fails keeps the squad: after the start of a load and its
    failure the members, squad value, bank, captain and vice-captain are
    those from before, the loading flag is down again, and the error shown is
    never empty (the message of the failure, or a fixed text when there is
    none). *)
Theorem failed_load_keeps_squad (s : TeamState) (message : option string) :
  let s' := loadTeamById_rejected (loadTeamById_start s) message in
  players s' = players s /\ teamValue s' = teamValue s /\ budget s' = budget s /\
  captain s' = captain s /\ viceCaptain s' = viceCaptain s /\
  isLoading (loadTeamById_start s) = true /\ isLoading s' = false /\
  exists shown, error s' = Some shown /\ shown <> "" /\
    (forall m, message = Some m -> m <> "" -> shown = m).
Proof.
  cbv zeta. unfold loadTeamById_rejected, loadTeamById_start. simpl.
  repeat (split; [done|]).
  destruct message as [[|a m]|]; eexists; (split; [done|]); split; try done;
    intros m' [= <-]; done.
Qed.

End LoadTeamFacts.

(** ** Predictions: further properties *)

Module ScoreFacts.

Import Predictions ScoringRules RankingRules PredictionFacts.

Local Open Scope Q_scope.

Lemma confidence_HIGH (f : PredictionFactors.t) :
  calculateConfidence f = HIGH <->
  7 <= PredictionFactors.minutesCertainty f /\ 5 <= PredictionFactors.form f /\
  6 <= PredictionFactors.fixtureDifficulty f.
Proof.
  unfold calculateConfidence. cbv zeta.
  rewrite <- !Qle_bool_iff.
  destruct (Qle_bool 7 _), (Qle_bool 5 _), (Qle_bool 6 _); simpl;
    repeat case_match; intuition congruence.
Qed.

Lemma confidence_LOW (f : PredictionFactors.t) :
  calculateConfidence f = LOW <->
  PredictionFactors.minutesCertainty f < 4 \/ PredictionFactors.form f < 3 \/
  PredictionFactors.fixtureDifficulty f < 3.
Proof.
  unfold calculateConfidence. cbv zeta.
  rewrite <- !Qltb_lt.
  destruct (Qle_bool 7 _) eqn:E7, (Qle_bool 5 _) eqn:E5, (Qle_bool 6 _) eqn:E6;
    simpl;
    destruct (JS.Qltb (PredictionFactors.minutesCertainty f) 4) eqn:L4,
             (JS.Qltb (PredictionFactors.form f) 3) eqn:L3,
             (JS.Qltb (PredictionFactors.fixtureDifficulty f) 3) eqn:L6;
    simpl; try (intuition congruence).
  all: exfalso; apply Qle_bool_iff in E7, E5, E6;
    try apply Qltb_lt in L4; try apply Qltb_lt in L3; try apply Qltb_lt in L6; lra.
Qed.

(** The confidence label is decided by three independent bars: HIGH exactly
    when minutes certainty is at least 7, form at least 5 and fixture score
    at least 6; LOW exactly when minutes certainty is below 4 or form below 3
    or fixture score below 3 (the two cases exclude each other, so the order
    of the tests does not matter); MEDIUM otherwise. *)
Theorem confidence_bands (f : PredictionFactors.t) :
  (calculateConfidence f = HIGH <->
   7 <= PredictionFactors.minutesCertainty f /\ 5 <= PredictionFactors.form f /\
   6 <= PredictionFactors.fixtureDifficulty f) /\
  (calculateConfidence f = LOW <->
   PredictionFactors.minutesCertainty f < 4 \/ PredictionFactors.form f < 3 \/
   PredictionFactors.fixtureDifficulty f < 3) /\
  (calculateConfidence f = MEDIUM <->
   ~ (7 <= PredictionFactors.minutesCertainty f /\ 5 <= PredictionFactors.form f /\
      6 <= PredictionFactors.fixtureDifficulty f) /\
   4 <= PredictionFactors.minutesCertainty f /\ 3 <= PredictionFactors.form f /\
   3 <= PredictionFactors.fixtureDifficulty f).
Proof.
  split; [apply confidence_HIGH|]. split; [apply confidence_LOW|].
  pose proof (confidence_HIGH f) as HH. pose proof (confidence_LOW f) as HL.
  destruct (calculateConfidence f); split; try done.
  - intros [Hn _]. exfalso. apply Hn. by apply HH.
  - intros _. split.
    + intros Hh. apply HH in Hh. discriminate.
    + assert (Hl : ~ (PredictionFactors.minutesCertainty f < 4 \/
                      PredictionFactors.form f < 3 \/
                      PredictionFactors.fixtureDifficulty f < 3)).
      { intros Hl. apply HL in Hl. discriminate. }
      repeat split; apply Qnot_lt_le; intros Hlt; apply Hl; tauto.
  - intros (_ & H4 & H3 & H6). exfalso.
    assert (Hl : PredictionFactors.minutesCertainty f < 4 \/
                 PredictionFactors.form f < 3 \/
                 PredictionFactors.fixtureDifficulty f < 3) by (by apply HL).
    destruct Hl as [Hl|[Hl|Hl]]; lra.
Qed.

(** A player who is injured or suspended, or whose chance of playing this
    round is 0, gets minutes certainty 0 and the confidence label LOW,
    whatever his form, fixture and team. *)
Theorem sidelined_player_is_low (p : Player.t) (f : option Fixture.t)
    (teams : list Team.t) (h : option (list PlayerHistory.t)) :
  Player.status p = StI \/ Player.status p = StS \/
  Player.chance_of_playing_this_round p = Some 0%Z ->
  Reasoning.minutesCertainty
    (PlayerPrediction.reasoning (predictPlayerPoints p f teams h)) == 0 /\
  PlayerPrediction.confidence (predictPlayerPoints p f teams h) = LOW.
Proof.
  intros Hside.
  assert (Hm : calculateMinutesCertaintyScore p == 0).
  { destruct p as [i et tm st cost ppg fm chance m]. simpl in Hside.
    destruct Hside as [ -> | [ -> | -> ] ]; [reflexivity|reflexivity|].
    destruct st; reflexivity. }
  unfold predictPlayerPoints. cbv zeta.
  cbn [PlayerPrediction.reasoning PlayerPrediction.confidence Reasoning.minutesCertainty].
  split; [exact Hm|].
  apply confidence_LOW. left. unfold predictionFactors. cbv zeta.
  cbn [PredictionFactors.minutesCertainty]. rewrite Hm. reflexivity.
Qed.

Lemma sidelined_player_is_low_witness :
  Player.status Samples.injuredKeeper = StI /\
  PlayerPrediction.confidence
    (predictPlayerPoints Samples.injuredKeeper (Some Samples.homeFixture)
       [Samples.homeSide] None) = LOW.
Proof.
  split; [reflexivity|].
  apply (sidelined_player_is_low Samples.injuredKeeper (Some Samples.homeFixture)
           [Samples.homeSide] None).
  left. reflexivity.
Defined.

(** With a known fixture and team the fixture score is 11 minus twice the
    difficulty of the player's side, clamped to [0,10]; for the ratings 1..5
    no clamping happens and the score runs 9, 7, 5, 3, 1.  Without a fixture,
    or when the player's team is not in the table, the score is the neutral
    5. *)
Theorem fixture_score_table (p : Player.t) (f : option Fixture.t) (teams : list Team.t) :
  (forall fx t, f = Some fx -> findTeam teams (Player.team p) = Some t ->
     calculateFixtureDifficultyScore p f teams
     == clamp 0 10 (inject_Z (11 - 2 * sideDifficulty p fx)) /\
     ((1 <= sideDifficulty p fx <= 5)%Z ->
      calculateFixtureDifficultyScore p f teams
      == inject_Z (11 - 2 * sideDifficulty p fx))) /\
  (f = None \/ findTeam teams (Player.team p) = None ->
   calculateFixtureDifficultyScore p f teams == 5).
Proof.
  split.
  - intros fx t -> Ht. unfold calculateFixtureDifficultyScore. rewrite Ht. cbv zeta.
    fold (sideDifficulty p fx).
    replace (11 - sideDifficulty p fx * 2)%Z with (11 - 2 * sideDifficulty p fx)%Z by lia.
    rewrite max_min_clamp by lra. split; [reflexivity|].
    intros Hd. unfold clamp.
    set (d := sideDifficulty p fx) in *.
    assert (H1 : 0 <= inject_Z (11 - 2 * d)).
    { change 0 with (inject_Z 0). rewrite <- Zle_Qle. lia. }
    assert (H2 : inject_Z (11 - 2 * d) <= 10).
    { change 10 with (inject_Z 10). rewrite <- Zle_Qle. lia. }
    apply Qltb_ge in H1. rewrite H1. apply Qltb_ge in H2. rewrite H2. reflexivity.
  - unfold calculateFixtureDifficultyScore. intros [->|Hn]; [reflexivity|].
    destruct f; [|reflexivity]. rewrite Hn. reflexivity.
Qed.

Lemma fixture_score_table_witness :
  findTeam [Samples.homeSide] (Player.team Samples.homeMidfielder) = Some Samples.homeSide /\
  (1 <= sideDifficulty Samples.homeMidfielder Samples.homeFixture <= 5)%Z /\
  calculateFixtureDifficultyScore Samples.homeMidfielder (Some Samples.homeFixture)
    [Samples.homeSide] == 7.
Proof.
  assert (Ht : findTeam [Samples.homeSide] (Player.team Samples.homeMidfielder)
               = Some Samples.homeSide) by reflexivity.
  assert (Hd : (1 <= sideDifficulty Samples.homeMidfielder Samples.homeFixture <= 5)%Z)
    by (vm_compute; split; discriminate).
  split; [exact Ht|]. split; [exact Hd|].
  destruct (proj1 (fixture_score_table Samples.homeMidfielder (Some Samples.homeFixture)
                     [Samples.homeSide])
              Samples.homeFixture Samples.homeSide eq_refl Ht) as [_ Hs].
  rewrite (Hs Hd). reflexivity.
Defined.

Lemma last5_of_app {A} (older recent : list A) :
  length recent = 5%nat -> last5 (older ++ recent) = recent.
Proof.
  intros Hlen. unfold last5. rewrite length_app, Hlen.
  replace (length older + 5 - 5)%nat with (length older) by lia.
  by rewrite drop_app_length.
Qed.

(** With a match history of five matches or more the form score is the mean
    of the points of the last five matches, capped at 10: neither the older
    matches nor the player's [form] string influence it. *)
Theorem form_is_last_five_mean (p : Player.t) (older recent : list PlayerHistory.t) :
  length recent = 5%nat ->
  calculateFormScore p (Some (older ++ recent))
  == Qmin (inject_Z (total (map PlayerHistory.total_points recent)) / 5) 10.
Proof.
  intros Hlen. unfold calculateFormScore. cbv zeta.
  destruct (older ++ recent) as [|g l] eqn:E.
  { apply (f_equal length) in E. rewrite length_app, Hlen in E. simpl in E. lia. }
  rewrite <- E, last5_of_app, Hlen by done.
  assert (Hsum : forall (l : list PlayerHistory.t) a,
            foldl (fun sum g => (sum + PlayerHistory.total_points g)%Z) a l
            = (a + total (map PlayerHistory.total_points l))%Z).
  { clear. induction l as [|g l IH]; intros a; simpl; [lia|]. rewrite IH. lia. }
  rewrite Hsum, Z.add_0_l. reflexivity.
Qed.

Lemma form_is_last_five_mean_witness :
  calculateFormScore Samples.homeMidfielder
    (Some (map PlayerHistory.mk [2; 8; 1; 3; 6; 12; 5]%Z)) == 27 # 5.
Proof.
  rewrite (form_is_last_five_mean Samples.homeMidfielder
             (map PlayerHistory.mk [2; 8]%Z) (map PlayerHistory.mk [1; 3; 6; 12; 5]%Z)
             eq_refl).
  reflexivity.
Defined.

(** With a known fixture and team the home/away score is the strength rating
    of the player's side times 10/140, without any clamp: it lies in [0,10]
    exactly when that rating lies in [0,140].  Without a fixture or team it
    is the neutral 5. *)
Theorem homeAway_score_scale (p : Player.t) (f : option Fixture.t) (teams : list Team.t) :
  (forall fx t, f = Some fx -> findTeam teams (Player.team p) = Some t ->
     calculateHomeAwayScore p f teams == inject_Z (sideStrength p fx t) * (10 # 140) /\
     (inRange 0 10 (calculateHomeAwayScore p f teams) <->
      (0 <= sideStrength p fx t <= 140)%Z)) /\
  (f = None \/ findTeam teams (Player.team p) = None ->
   calculateHomeAwayScore p f teams == 5).
Proof.
  split.
  - intros fx t -> Ht.
    assert (Hs : calculateHomeAwayScore p (Some fx) teams
                 == inject_Z (sideStrength p fx t) * (10 # 140)).
    { unfold calculateHomeAwayScore, sideStrength. rewrite Ht. cbv zeta.
      repeat case_match; field. }
    split; [exact Hs|]. unfold inRange. rewrite Hs.
    set (k := sideStrength p fx t). rewrite (Zle_Qle 0 k), (Zle_Qle k 140).
    change (inject_Z 0) with 0. change (inject_Z 140) with 140.
    split; intros [H1 H2]; split; lra.
  - unfold calculateHomeAwayScore. intros [->|Hn]; [reflexivity|].
    destruct f; [|reflexivity]. rewrite Hn. reflexivity.
Qed.

Lemma homeAway_score_scale_witness :
  findTeam [Samples.homeSide] (Player.team Samples.homeMidfielder) = Some Samples.homeSide /\
  ~ inRange 0 10
      (calculateHomeAwayScore Samples.homeMidfielder (Some Samples.homeFixture)
         [Samples.homeSide]).
Proof.
  assert (Ht : findTeam [Samples.homeSide] (Player.team Samples.homeMidfielder)
               = Some Samples.homeSide) by reflexivity.
  split; [exact Ht|].
  destruct (proj1 (homeAway_score_scale Samples.homeMidfielder (Some Samples.homeFixture)
                     [Samples.homeSide])
              Samples.homeFixture Samples.homeSide eq_refl Ht) as [_ Hr].
  intros Hin. apply Hr in Hin. vm_compute in Hin. destruct Hin as [_ Hin]. by apply Hin.
Defined.

End ScoreFacts.

(** ** Rankings: further properties *)

Module RankingFacts.

Import Predictions PredictionsRest ScoringRules RankingRules PredictionFacts TransferFacts.

Local Open Scope Q_scope.

Section SortByKey.

Context {A : Type} (key : A -> Q) (cmp : A -> A -> Q).

Lemma insert_sorted_by (x : A) (k : list A) :
  (forall y, y ∈ k -> cmp x y == key y - key x) ->
  StronglySorted (fun a b => key b <= key a) k ->
  StronglySorted (fun a b => key b <= key a) (TransferPlanner.sort_insert cmp x k).
Proof.
  induction k as [|y k IH]; intros Hcmp Hk; simpl.
  - repeat constructor.
  - apply StronglySorted_inv in Hk as [Hk Hy].
    assert (Hxy : cmp x y == key y - key x) by apply Hcmp, list_elem_of_here.
    destruct (JS.Qltb 0 (cmp x y)) eqn:E.
    + apply Qltb_lt in E. rewrite Hxy in E.
      constructor.
      * apply IH; [|done]. intros z Hz. by apply Hcmp, list_elem_of_further.
      * apply Forall_forall. intros z Hz.
        apply sort_insert_elem in Hz as [->|Hz]; [lra|].
        by apply (proj1 (Forall_forall _ _) Hy).
    + apply Qltb_ge in E. rewrite Hxy in E.
      constructor; [by constructor|].
      constructor; [lra|].
      eapply Forall_impl; [exact Hy|]. simpl. intros z Hz. lra.
Qed.

Lemma sort_sorted_by (l : list A) :
  (forall a b, a ∈ l -> b ∈ l -> cmp a b == key b - key a) ->
  StronglySorted (fun a b => key b <= key a) (TransferPlanner.sort cmp l).
Proof.
  unfold TransferPlanner.sort.
  induction l as [|x l IH]; intros Hcmp; simpl; [constructor|].
  apply insert_sorted_by.
  - intros y Hy. apply Hcmp; [apply list_elem_of_here|].
    apply list_elem_of_further. by apply (sort_elem cmp y l).
  - apply IH. intros a b Ha Hb. by apply Hcmp; apply list_elem_of_further.
Qed.

End SortByKey.

Lemma StronglySorted_weaken {A} (R S : A -> A -> Prop) (l : list A) :
  (forall a b, R a b -> S a b) -> StronglySorted R l -> StronglySorted S l.
Proof.
  intros HRS. induction 1 as [|x l _ IH Hx]; constructor; [done|].
  eapply Forall_impl; [exact Hx|]. intros b. apply HRS.
Qed.

Lemma slice0_take {A} (n : Z) (l : list A) : exists k, slice0 n l = take k l.
Proof. unfold slice0. destruct (n <? 0)%Z; eauto. Qed.

Lemma slice0_nonneg {A} (n : Z) (l : list A) :
  (0 <= n)%Z -> slice0 n l = take (Z.to_nat n) l.
Proof. unfold slice0. intros Hn. destruct (Z.ltb_spec n 0); [lia|done]. Qed.

Lemma round_integer (z : Z) : JS.round (inject_Z z) = z.
Proof.
  unfold JS.round.
  pose proof (Qfloor_le (inject_Z z + (1 # 2))) as Hlo.
  pose proof (Qlt_floor (inject_Z z + (1 # 2))) as Hhi.
  set (fl := Qfloor (inject_Z z + (1 # 2))) in *.
  assert (H1 : inject_Z fl < inject_Z (z + 1)).
  { rewrite inject_Z_plus. change (inject_Z 1) with 1. lra. }
  assert (H2 : inject_Z z < inject_Z (fl + 1)) by lra.
  rewrite <- Zlt_Qlt in H1, H2. lia.
Qed.

Lemma sorted_predictions (l : list PlayerPrediction.t) :
  pointsDescending (TransferPlanner.sort byPointsDesc l).
Proof.
  unfold pointsDescending.
  apply (StronglySorted_weaken
           (fun a b => inject_Z (points b) <= inject_Z (points a))).
  { intros a b. by rewrite <- Zle_Qle. }
  apply (sort_sorted_by (fun e => inject_Z (points e))).
  intros a b _ _. unfold byPointsDesc, points, Z.sub.
  rewrite inject_Z_plus, inject_Z_opp. ring.
Qed.

(** [getTopCaptainPicks] returns predictions of listed players, one for each
    of the best: the list is sorted by predicted points in descending order,
    every entry is the prediction of a listed player against the fixture the
    lookup gives him, it has min(limit, number of players) entries for a
    limit that is not negative (10 when no limit is passed), and no listed
    player is predicted more points than the first entry. *)
Theorem top_captain_picks (players : list Player.t)
    (nextFixture : Z -> option Fixture.t) (teams : list Team.t) (limit : option Z) :
  let picks := getTopCaptainPicks players nextFixture teams limit in
  pointsDescending picks /\
  (forall e, e ∈ picks -> exists p, p ∈ players /\ e = predictionOf nextFixture teams p) /\
  ((0 <= default 10 limit)%Z ->
   length picks = Nat.min (Z.to_nat (default 10%Z limit)) (length players)) /\
  (forall e p, head picks = Some e -> p ∈ players ->
     (points (predictionOf nextFixture teams p) <= points e)%Z).
Proof.
  cbv zeta. unfold getTopCaptainPicks. cbv zeta.
  fold (predictionOf nextFixture teams).
  set (sorted := TransferPlanner.sort byPointsDesc (map (predictionOf nextFixture teams) players)).
  assert (Hsorted : pointsDescending sorted) by apply sorted_predictions.
  assert (Helem : forall e, e ∈ sorted <->
             exists p, p ∈ players /\ e = predictionOf nextFixture teams p).
  { intros e. unfold sorted. rewrite sort_elem. split.
    - intros (p & <- & Hp)%list_elem_of_In%in_map_iff.
      exists p. split; [by apply list_elem_of_In|done].
    - intros (p & Hp & ->). apply list_elem_of_In, in_map, list_elem_of_In, Hp. }
  destruct (slice0_take (default 10%Z limit) sorted) as [k Hk]. rewrite Hk.
  split; [|split; [|split]].
  - unfold pointsDescending in *. rewrite <- (take_drop k sorted) in Hsorted.
    by apply StronglySorted_app_1_l in Hsorted.
  - intros e He. apply Helem. by apply (subseteq_take k).
  - intros Hn. rewrite <- Hk, slice0_nonneg, length_take by done.
    unfold sorted. by rewrite sort_length, length_map.
  - intros e p He Hp.
    assert (Hin : predictionOf nextFixture teams p ∈ sorted) by (apply Helem; eauto).
    destruct sorted as [|e' rest]; [by apply elem_of_nil in Hin|].
    destruct k as [|k]; [done|]. simpl in He. injection He as ->.
    apply elem_of_cons in Hin as [->|Hin]; [lia|].
    apply StronglySorted_inv in Hsorted as [_ Hall].
    by apply (proj1 (Forall_forall _ _) Hall).
Qed.

Lemma top_captain_picks_witness :
  (0 <= default 10 (Some 2%Z))%Z /\
  length (getTopCaptainPicks (TeamStore.players Samples.sampleState)
            (fun _ => Some Samples.homeFixture) [Samples.homeSide] (Some 2%Z)) = 2%nat.
Proof.
  assert (Hn : (0 <= default 10 (Some 2%Z))%Z) by (simpl; lia).
  split; [exact Hn|].
  destruct (top_captain_picks (TeamStore.players Samples.sampleState)
              (fun _ => Some Samples.homeFixture) [Samples.homeSide] (Some 2%Z))
    as (_ & _ & Hlen & _).
  rewrite (Hlen Hn). reflexivity.
Defined.

Lemma doubled_acc (pts : Player.t -> Z) (captain : option Z) (ps : list Player.t) (a : Z) :
  foldl (fun totalPoints player =>
           (totalPoints
            + pts player * (if TeamStore.is_id captain (Player.id player) then 2 else 1))%Z)
        a ps
  = (a + total (map pts ps)
     + total (map pts (filter (fun p => captain = Some (Player.id p)) ps)))%Z.
Proof.
  revert a. induction ps as [|p ps IH]; intros a; [simpl; lia|].
  rewrite filter_cons. cbn [foldl map total foldr]. rewrite IH.
  destruct captain as [c|]; cbn [TeamStore.is_id].
  - destruct (Z.eqb_spec c (Player.id p)) as [->|Hne].
    + rewrite decide_True by done. cbn [map total foldr]. fold (total (map pts ps)).
      unfold total. lia.
    + rewrite decide_False by congruence. unfold total. lia.
  - rewrite decide_False by done. unfold total. lia.
Qed.

Lemma team_points_acc (nextFixture : Z -> option Fixture.t) (teams : list Team.t)
    (captain : option Z) (ps : list Player.t) (a : Z) :
  foldl (fun totalPoints player =>
           (totalPoints
            + PlayerPrediction.predictedPoints
                (predictPlayerPoints player (nextFixture (Player.id player)) teams None)
              * (if TeamStore.is_id captain (Player.id player) then 2 else 1))%Z)
        a ps
  = (a + total (map (fun p => points (predictionOf nextFixture teams p)) ps)
     + total (map (fun p => points (predictionOf nextFixture teams p))
                (filter (fun p => captain = Some (Player.id p)) ps)))%Z.
Proof.
  exact (doubled_acc (fun p => points (predictionOf nextFixture teams p)) captain ps a).
Qed.

Lemma total_Permutation (l k : list Z) : l ≡ₚ k -> total l = total k.
Proof.
  unfold total. induction 1; simpl; lia.
Qed.

(** The team total is the sum of the predicted points of all players plus,
    once more, the predicted points of every player whose id is the
    captain's (so the captain counts double, and a captain id that is not set
    or not in the list adds nothing); the final rounding changes nothing; and
    the total does not depend on the order of the players. *)
Theorem team_points_captain_doubled (players : list Player.t)
    (nextFixture : Z -> option Fixture.t) (teams : list Team.t) (captain : option Z) :
  calculateTeamPredictedPoints players nextFixture teams captain
  = (total (map (fun p => points (predictionOf nextFixture teams p)) players)
     + total (map (fun p => points (predictionOf nextFixture teams p))
                (filter (fun p => captain = Some (Player.id p)) players)))%Z /\
  (forall players', players ≡ₚ players' ->
     calculateTeamPredictedPoints players' nextFixture teams captain
     = calculateTeamPredictedPoints players nextFixture teams captain).
Proof.
  assert (Heq : forall ps,
            calculateTeamPredictedPoints ps nextFixture teams captain
            = (total (map (fun p => points (predictionOf nextFixture teams p)) ps)
               + total (map (fun p => points (predictionOf nextFixture teams p))
                          (filter (fun p => captain = Some (Player.id p)) ps)))%Z).
  { intros ps. unfold calculateTeamPredictedPoints. cbv zeta.
    rewrite round_integer, team_points_acc. lia. }
  split; [apply Heq|].
  intros players' Hperm. rewrite !Heq. f_equal; apply total_Permutation.
  - by rewrite Hperm.
  - by rewrite Hperm.
Qed.

Lemma team_points_captain_doubled_witness :
  [Samples.sampleA; Samples.sampleB] ≡ₚ [Samples.sampleB; Samples.sampleA] /\
  calculateTeamPredictedPoints [Samples.sampleB; Samples.sampleA]
    (fun _ => None) [] (Some 1%Z)
  = calculateTeamPredictedPoints [Samples.sampleA; Samples.sampleB]
      (fun _ => None) [] (Some 1%Z).
Proof.
  assert (Hp : [Samples.sampleA; Samples.sampleB] ≡ₚ [Samples.sampleB; Samples.sampleA])
    by apply Permutation_swap.
  split; [exact Hp|].
  exact (proj2 (team_points_captain_doubled [Samples.sampleA; Samples.sampleB]
                  (fun _ => None) [] (Some 1%Z)) _ Hp).
Defined.

(** The differential score is not a number exactly when the ownership
    string does not parse; otherwise it is never negative, it is 100 minus
    the ownership for an ownership of at most 100, and 0 from there on. *)
Theorem differential_score_range (player : OwnedPlayer.t) :
  (calculateDifferentialScore player = None <->
   JS.parseFloat (OwnedPlayer.selected_by_percent player) = None) /\
  (forall o, JS.parseFloat (OwnedPlayer.selected_by_percent player) = Some o ->
     exists d, calculateDifferentialScore player = Some d /\ 0 <= d /\
       (o <= 100 -> d == 100 - o) /\ (100 <= o -> d == 0)).
Proof.
  unfold calculateDifferentialScore. cbv zeta.
  destruct (JS.parseFloat _) as [o|]; split; try done.
  intros o' [= <-]. eexists. split; [done|].
  split; [apply Q.le_max_l|]. split; intros Ho.
  - apply Q.max_r. lra.
  - apply Q.max_l. lra.
Qed.

Lemma differential_score_range_witness :
  JS.parseFloat (OwnedPlayer.selected_by_percent MoreSamples.ownedA) = Some (45 # 10) /\
  exists d, calculateDifferentialScore MoreSamples.ownedA = Some d /\ d == 955 # 10.
Proof.
  assert (Hp : JS.parseFloat (OwnedPlayer.selected_by_percent MoreSamples.ownedA)
               = Some (45 # 10)) by reflexivity.
  split; [exact Hp|].
  destruct (proj2 (differential_score_range MoreSamples.ownedA) _ Hp)
    as (d & Hd & _ & Hle & _).
  exists d. split; [exact Hd|]. rewrite Hle; [reflexivity|]. vm_compute. discriminate.
Defined.

(** [getDifferentialCaptains] keeps only players whose ownership is a number
    not above the cap (10 when none is passed): every entry belongs to a
    listed player, carries that ownership, a differential score that is a
    number of at least 100 minus the cap and never negative, and the player's
    prediction.  The entries are sorted by 0.7 x points + 0.3 x differential
    score in descending order, and for a limit that is not negative there are
    at most that many (10 when none is passed). *)
Theorem differential_captains (players : list OwnedPlayer.t)
    (nextFixture : Z -> option Fixture.t) (teams : list Team.t)
    (maxOwnership : option Q) (limit : option Z) :
  let picks := getDifferentialCaptains players nextFixture teams maxOwnership limit in
  let cap := default 10 maxOwnership in
  (forall e, e ∈ picks ->
     exists pl o d,
       pl ∈ players /\
       JS.parseFloat (OwnedPlayer.selected_by_percent pl) = Some o /\ o <= cap /\
       DifferentialPick.ownership e = Some o /\
       DifferentialPick.differentialScore e = Some d /\ 0 <= d /\ 100 - cap <= d /\
       DifferentialPick.prediction e
       = predictionOf nextFixture teams (OwnedPlayer.player pl)) /\
  StronglySorted (fun a b => blendOf b <= blendOf a) picks /\
  ((0 <= default 10 limit)%Z ->
   (length picks <= Z.to_nat (default 10%Z limit))%nat).
Proof.
  cbv zeta. unfold getDifferentialCaptains. cbv zeta.
  set (cap := default 10 maxOwnership).
  set (entry := fun player : OwnedPlayer.t =>
         DifferentialPick.mk
           (predictPlayerPoints (OwnedPlayer.player player)
              (nextFixture (Player.id (OwnedPlayer.player player))) teams None)
           (JS.parseFloat (OwnedPlayer.selected_by_percent player))
           (calculateDifferentialScore player)).
  set (kept := List.filter _ players).
  assert (Hentry : forall e, e ∈ map entry kept ->
            exists pl o d,
              pl ∈ players /\
              JS.parseFloat (OwnedPlayer.selected_by_percent pl) = Some o /\ o <= cap /\
              DifferentialPick.ownership e = Some o /\
              DifferentialPick.differentialScore e = Some d /\ 0 <= d /\ 100 - cap <= d /\
              DifferentialPick.prediction e
              = predictionOf nextFixture teams (OwnedPlayer.player pl)).
  { intros e (pl & <- & Hpl)%list_elem_of_In%in_map_iff.
    apply filter_In in Hpl as [Hpl Hle]. unfold nan_le in Hle.
    destruct (JS.parseFloat (OwnedPlayer.selected_by_percent pl)) as [o|] eqn:Ho;
      [|done].
    apply Qle_bool_iff in Hle. fold cap in Hle.
    exists pl, o, (Qmax 0 (100 - o)). unfold entry, calculateDifferentialScore.
    rewrite Ho. cbn [DifferentialPick.ownership DifferentialPick.differentialScore
                     DifferentialPick.prediction].
    split; [by apply list_elem_of_In|]. split; [done|]. split; [done|].
    split; [done|]. split; [done|]. split; [apply Q.le_max_l|].
    split; [|done]. pose proof (Q.le_max_r 0 (100 - o)). lra. }
  destruct (slice0_take (default 10%Z limit)
              (TransferPlanner.sort byBlendDesc (map entry kept))) as [k Hk].
  split; [|split].
  - intros e He. apply Hentry. rewrite Hk in He.
    apply (subseteq_take k) in He. by apply sort_elem in He.
  - rewrite Hk.
    assert (Hs : StronglySorted (fun a b => blendOf b <= blendOf a)
                   (TransferPlanner.sort byBlendDesc (map entry kept))).
    { apply (sort_sorted_by blendOf). intros a b Ha Hb.
      destruct (Hentry a Ha) as (_ & _ & da & _ & _ & _ & _ & Hda & _).
      destruct (Hentry b Hb) as (_ & _ & db & _ & _ & _ & _ & Hdb & _).
      unfold byBlendDesc, blendOf, blend. rewrite Hda, Hdb. simpl. reflexivity. }
    rewrite <- (take_drop k _) in Hs. by apply StronglySorted_app_1_l in Hs.
  - intros Hn. rewrite slice0_nonneg, length_take by done. lia.
Qed.

Lemma differential_captains_witness :
  (0 <= default 10 (Some 5%Z))%Z /\
  (length (getDifferentialCaptains
             [MoreSamples.ownedA; MoreSamples.ownedB; MoreSamples.ownedC]
             (fun _ => None) [] None (Some 5%Z)) <= 5)%nat.
Proof.
  assert (Hn : (0 <= default 10 (Some 5%Z))%Z) by (simpl; lia).
  split; [exact Hn|].
  exact (proj2 (proj2 (differential_captains
                         [MoreSamples.ownedA; MoreSamples.ownedB; MoreSamples.ownedC]
                         (fun _ => None) [] None (Some 5%Z))) Hn).
Defined.

(** [predictMultipleGameweeks] predicts the first fixtures in order: entry
    [i] is the prediction against fixture [i] with that fixture's gameweek
    (0 when it has none), there are min(n, number of fixtures) entries for an
    [n] that is not negative (3 when none is passed), and all entries share
    the form and minutes-certainty scores of the player, which do not depend
    on the fixture. *)
Theorem multi_gameweek_predictions (p : Player.t) (fixtures : list ScheduledFixture.t)
    (teams : list Team.t) (n : option Z) (h : option (list PlayerHistory.t)) :
  let rows := predictMultipleGameweeks p fixtures teams n h in
  ((0 <= default 3 n)%Z ->
   length rows = Nat.min (Z.to_nat (default 3%Z n)) (length fixtures)) /\
  (forall i e, rows !! i = Some e ->
     exists f, fixtures !! i = Some f /\
       GameweekPrediction.gameweek e = event_or_zero (ScheduledFixture.event f) /\
       GameweekPrediction.prediction e
       = predictPlayerPoints p (Some (ScheduledFixture.fixture f)) teams h) /\
  (forall e, e ∈ rows ->
     Reasoning.form (PlayerPrediction.reasoning (GameweekPrediction.prediction e))
     = calculateFormScore p h /\
     Reasoning.minutesCertainty
       (PlayerPrediction.reasoning (GameweekPrediction.prediction e))
     = calculateMinutesCertaintyScore p).
Proof.
  cbv zeta. unfold predictMultipleGameweeks.
  set (row := fun f : ScheduledFixture.t => GameweekPrediction.mk _ _).
  split; [|split].
  - intros Hn. rewrite length_map, slice0_nonneg, length_take by done. done.
  - intros i e He. destruct (slice0_take (default 3%Z n) fixtures) as [k Hk].
    rewrite Hk in He. change (map row (take k fixtures)) with (row <$> take k fixtures) in He.
    apply list_lookup_fmap_Some in He as (f & -> & Hf).
    apply lookup_take_Some in Hf as [Hf _]. exists f. by split.
  - intros e (f & <- & _)%list_elem_of_In%in_map_iff. by split.
Qed.

Lemma multi_gameweek_predictions_witness :
  (0 <= default 3 None)%Z /\
  length (predictMultipleGameweeks Samples.homeMidfielder MoreSamples.schedule
            [Samples.homeSide] None None) = 3%nat.
Proof.
  assert (Hn : (0 <= default 3 None)%Z) by (simpl; lia).
  split; [exact Hn|].
  rewrite (proj1 (multi_gameweek_predictions Samples.homeMidfielder MoreSamples.schedule
                    [Samples.homeSide] None None) Hn).
  reflexivity.
Defined.

(** The two difficulty palettes agree on every rating from 1 upwards and
    only there: for a rating of 0 or less [getFixtureDifficultyRating] says
    red ("Very Hard") where [fplApi.getDifficultyColor] says green. *)
Theorem difficulty_colours_agree (difficulty : Z) :
  DifficultyRating.color (getFixtureDifficultyRating difficulty)
  = FplApi.getDifficultyColor difficulty <-> (1 <= difficulty)%Z.
Proof.
  unfold getFixtureDifficultyRating, FplApi.getDifficultyColor.
  destruct (Z.eqb_spec difficulty 1) as [->|H1]; [by split|].
  destruct (Z.eqb_spec difficulty 2) as [->|H2]; [by split|].
  destruct (Z.eqb_spec difficulty 3) as [->|H3]; [by split|].
  destruct (Z.eqb_spec difficulty 4) as [->|H4]; [by split|].
  simpl. destruct (Z.leb_spec difficulty 2); split; try done; lia.
Qed.

End RankingFacts.

(** ** Transfer candidates: further properties *)

Module CandidateFacts.

Import TeamStore SquadRules TeamStoreOps SquadShape TeamStoreFacts SquadShapeFacts.
Import TransferPlanner ScoringRules PredictionFacts TransferFacts.

Lemma teamTeams_acc (tp : list Player.t) (m : gmap Z Z) (club : Z) :
  default 0 (foldl (fun acc p =>
                      <[Player.team p := default 0 (acc !! Player.team p) + 1]> acc)
                   m tp !! club)
  = default 0 (m !! club)
    + Z.of_nat (countWhere (fun q => Player.team q = club) tp).
Proof.
  revert m. unfold countWhere.
  induction tp as [|p tp IH]; intros m; simpl; [lia|].
  rewrite IH, filter_cons, lookup_insert.
  destruct (decide (Player.team p = club)) as [->|Hne]; simpl; lia.
Qed.

Lemma teamTeams_count (teamPlayers : list Player.t) (club : Z) :
  default 0 (teamTeams teamPlayers !! club)
  = Z.of_nat (countWhere (fun q => Player.team q = club) teamPlayers).
Proof. unfold teamTeams. rewrite teamTeams_acc, lookup_empty. simpl. lia. Qed.

(** The per-club counter built by the [reduce] holds, for every club, the
    number of squad members of that club (and nothing for a club without
    members). *)
Theorem teamTeams_counts (teamPlayers : list Player.t) (club : Z) :
  default 0 (teamTeams teamPlayers !! club)
  = Z.of_nat (countWhere (fun q => Player.team q = club) teamPlayers) /\
  (teamTeams teamPlayers !! club = None <->
   forall q, q ∈ teamPlayers -> Player.team q <> club).
Proof.
  assert (Hcount : default 0 (teamTeams teamPlayers !! club)
                   = Z.of_nat (countWhere (fun q => Player.team q = club) teamPlayers)).
  { apply teamTeams_count. }
  split; [exact Hcount|].
  assert (Hpos : forall tp (m : gmap Z Z),
            (forall k v, m !! k = Some v -> 0 < v) ->
            forall k v,
              foldl (fun acc p =>
                       <[Player.team p := default 0 (acc !! Player.team p) + 1]> acc)
                    m tp !! k = Some v -> 0 < v).
  { clear. induction tp as [|p tp IH]; intros m Hm k v; simpl; [apply Hm|].
    apply IH. intros k' v'. rewrite lookup_insert.
    destruct (decide (Player.team p = k')) as [->|_]; [|apply Hm].
    intros [= <-]. destruct (m !! k') as [w|] eqn:E; simpl; [|lia].
    specialize (Hm _ _ E). lia. }
  unfold countWhere in Hcount. split.
  - intros Hnone q Hq Hteam. rewrite Hnone in Hcount. simpl in Hcount.
    assert (Hin : q ∈ filter (fun q => Player.team q = club) teamPlayers)
      by (by apply list_elem_of_filter).
    destruct (filter _ teamPlayers); [by apply elem_of_nil in Hin|simpl in Hcount; lia].
  - intros Hno. destruct (teamTeams teamPlayers !! club) as [v|] eqn:E; [|done].
    exfalso. assert (0 < v) by (apply (Hpos teamPlayers ∅ ltac:(intros ? ?; by rewrite lookup_empty) club v E)).
    simpl in Hcount.
    destruct (filter (fun q => Player.team q = club) teamPlayers) as [|q l] eqn:Hf;
      [simpl in Hcount; lia|].
    assert (Hq : q ∈ filter (fun q => Player.team q = club) teamPlayers)
      by (rewrite Hf; apply list_elem_of_here).
    apply list_elem_of_filter in Hq as [Hteam Hq]. by apply (Hno q).
Qed.

Lemma teamPlayerIds_elem (teamPlayers : list Player.t) (i : Z) :
  i ∈ teamPlayerIds teamPlayers <-> exists q, q ∈ teamPlayers /\ Player.id q = i.
Proof.
  unfold teamPlayerIds. rewrite elem_of_list_to_set. split.
  - intros (q & <- & Hq)%list_elem_of_In%in_map_iff. exists q.
    split; [by apply list_elem_of_In|done].
  - intros (q & Hq & <-). apply list_elem_of_In, in_map, list_elem_of_In, Hq.
Qed.

Lemma pushesFor_candidate ids counts budget allPlayers playerOut sg :
  sg ∈ pushesFor ids counts budget allPlayers playerOut ->
  exists playerIn,
    sg = scorePair playerOut playerIn /\
    isCandidate ids counts budget playerOut playerIn = true.
Proof.
  unfold pushesFor. cbv zeta. intros Hsg.
  apply list_elem_of_In, filter_In in Hsg as [Hsg _].
  apply in_map_iff in Hsg as (c & <- & Hc).
  exists c. split; [done|].
  apply list_elem_of_In in Hc. apply subseteq_take in Hc.
  by apply list_elem_of_In, filter_In in Hc as [_ Hc].
Qed.

Lemma suggestions_candidate teamPlayers allPlayers budget sg :
  sg ∈ suggestions teamPlayers allPlayers budget ->
  exists playerOut playerIn,
    playerOut ∈ teamPlayers /\ sg = scorePair playerOut playerIn /\
    isCandidate (teamPlayerIds teamPlayers) (teamTeams teamPlayers) budget
      playerOut playerIn = true.
Proof.
  unfold suggestions. cbv zeta. intros Hsg.
  apply subseteq_take, sort_elem in Hsg.
  apply list_elem_of_In, in_flat_map in Hsg as (o & Ho & Hsg).
  apply list_elem_of_In, pushesFor_candidate in Hsg as (c & -> & Hc).
  exists o, c. split; [by apply list_elem_of_In|done].
Qed.

(** What the candidate filter lets through, in terms of the squad. *)
Lemma isCandidate_spec (teamPlayers : list Player.t) (budget : Z) (o i : Player.t) :
  isCandidate (teamPlayerIds teamPlayers) (teamTeams teamPlayers) budget o i = true ->
  Player.element_type i = Player.element_type o /\
  (forall q, q ∈ teamPlayers -> Player.id q <> Player.id i) /\
  Player.now_cost i <= budget + Player.now_cost o /\
  (Player.team i = Player.team o \/
   (countWhere (fun q => Player.team q = Player.team i) teamPlayers < 3)%nat) /\
  (Player.status i = StA \/ Player.status i = StD).
Proof.
  unfold isCandidate. cbv zeta.
  destruct (Z.eqb_spec (Player.element_type i) (Player.element_type o)) as [Het|];
    [|done]. simpl.
  case_bool_decide as Hid; [done|].
  destruct (Z.ltb_spec (budget + Player.now_cost o) (Player.now_cost i)); [done|].
  rewrite (teamTeams_count teamPlayers (Player.team i)).
  destruct (negb _ && _) eqn:Hclub; [done|].
  destruct (bool_decide _ && bool_decide _) eqn:Hst; [done|]. intros _.
  split; [done|]. split.
  { intros q Hq Heq. apply Hid, teamPlayerIds_elem. eauto. }
  split; [done|]. split.
  - apply andb_false_iff in Hclub as [Hc|Hc].
    + left. apply negb_false_iff, Z.eqb_eq in Hc. done.
    + right. apply Z.leb_gt in Hc. lia.
  - apply andb_false_iff in Hst as [Hs|Hs]; apply bool_decide_eq_false in Hs.
    + left. destruct (decide (Player.status i = StA)); [done|by destruct Hs].
    + right. destruct (decide (Player.status i = StD)); [done|by destruct Hs].
Qed.

(** Every suggestion is a legal-looking swap: the incoming player plays in
    the position of the outgoing squad member, is not in the squad, costs at
    most the budget plus the price of the outgoing player, is available or
    doubtful, and comes from the outgoing player's club or from a club with
    fewer than three squad members. *)
Theorem suggestion_candidates teamPlayers allPlayers budget (sg : TransferSuggestion.t) :
  sg ∈ suggestions teamPlayers allPlayers budget ->
  let o := TransferSuggestion.playerOut sg in
  let i := TransferSuggestion.playerIn sg in
  o ∈ teamPlayers /\
  Player.element_type i = Player.element_type o /\
  (forall q, q ∈ teamPlayers -> Player.id q <> Player.id i) /\
  Player.now_cost i <= budget + Player.now_cost o /\
  (Player.team i = Player.team o \/
   (countWhere (fun q => Player.team q = Player.team i) teamPlayers < 3)%nat) /\
  (Player.status i = StA \/ Player.status i = StD).
Proof.
  intros (o & i & Ho & -> & Hc)%suggestions_candidate. cbv zeta.
  cbn [scorePair TransferSuggestion.playerOut TransferSuggestion.playerIn].
  split; [done|]. by apply isCandidate_spec.
Qed.

Lemma suggestion_candidates_witness :
  scorePair Samples.squadMid Samples.poolMidA
    ∈ suggestions [Samples.squadMid] [Samples.poolMidA; Samples.poolMidB] 0 /\
  Player.now_cost Samples.poolMidA <= 0 + Player.now_cost Samples.squadMid.
Proof.
  assert (Hin : scorePair Samples.squadMid Samples.poolMidA
                ∈ suggestions [Samples.squadMid] [Samples.poolMidA; Samples.poolMidB] 0).
  { vm_compute. apply list_elem_of_here. }
  split; [exact Hin|].
  apply (suggestion_candidates [Samples.squadMid] [Samples.poolMidA; Samples.poolMidB]
           0 _ Hin).
Defined.

Lemma countWhere_filter_lt (P Q : Player.t -> Prop)
    `{forall p, Decision (P p)} `{forall p, Decision (Q p)}
    (ps : list Player.t) (x : Player.t) :
  x ∈ ps -> P x -> ~ Q x ->
  (countWhere P (filter Q ps) < countWhere P ps)%nat.
Proof.
  unfold countWhere. intros Hx HP HQ.
  induction Hx as [x ps|x y ps Hx IH].
  - rewrite (filter_cons_False Q), (filter_cons_True P) by done. simpl.
    pose proof (countWhere_filter P Q ps) as Hle. unfold countWhere in Hle. lia.
  - specialize (IH HP HQ). rewrite (filter_cons Q), (filter_cons P).
    destruct (decide (Q y)), (decide (P y)).
    + rewrite filter_cons_True by done. simpl. lia.
    + by rewrite filter_cons_False by done.
    + simpl. lia.
    + done.
Qed.

(** A suggestion and the store.  Take a well-formed squad and the
    suggestions computed from its members and its bank.  After the outgoing
    player has been removed, none of the four membership rules of
    [canAddPlayer] refuses the incoming player; the store then accepts him
    exactly when his price is at most the bank - the price of the player sold
    is not credited, although the planner counted it. *)
Theorem suggestion_fits_store (s : TeamState) (pool : list Player.t)
    (sg : TransferSuggestion.t) :
  wellFormed s ->
  sg ∈ suggestions (players s) pool (budget s) ->
  let o := TransferSuggestion.playerOut sg in
  let i := TransferSuggestion.playerIn sg in
  let s' := removePlayer s (Player.id o) in
  ~ membershipRejects s' i /\
  (valid (canAddPlayer s' i) = true <-> Player.now_cost i <= budget s).
Proof.
  intros (Hlen & _ & Hq & Hc & _) (o & i & Ho & -> & Hcand)%suggestions_candidate.
  apply isCandidate_spec in Hcand as (Het & Hnew & _ & Hclub & _).
  cbv zeta. cbn [scorePair TransferSuggestion.playerOut TransferSuggestion.playerIn].
  set (s' := removePlayer s (Player.id o)).
  assert (Hps : players s' = filter (fun q => Player.id q <> Player.id o) (players s))
    by done.
  assert (Hmem : ~ membershipRejects s' i).
  { unfold membershipRejects, squadFull, member, quotaMet, clubFull. rewrite Hps.
    intros [Hfull|[Hm|[Hquota|Hcl]]].
    - assert (length (filter (fun q => Player.id q <> Player.id o) (players s))
              < length (players s))%nat; [|lia].
      apply (length_filter_lt _ _ o); [done|]. intros Hne. by apply Hne.
    - destruct Hm as (q & Hin & Hid).
      apply list_elem_of_filter in Hin as [_ Hin]. by apply (Hnew q).
    - destruct Hquota as (pos & Hpos & Hge).
      pose proof (Hq _ _ Hpos) as Hle.
      pose proof (countWhere_filter_lt
                    (fun q => Player.element_type q = Player.element_type i)
                    (fun q => Player.id q <> Player.id o) (players s) o Ho) as Hlt.
      assert (countWhere (fun q => Player.element_type q = Player.element_type i)
                (filter (fun q => Player.id q <> Player.id o) (players s))
              < countWhere (fun q => Player.element_type q = Player.element_type i)
                  (players s))%nat; [|lia].
      apply Hlt; [done|]. intros Hne. by apply Hne.
    - pose proof (Hc (Player.team i)) as Hle.
      pose proof (countWhere_filter (fun q => Player.team q = Player.team i)
                    (fun q => Player.id q <> Player.id o) (players s)) as Hmono.
      destruct Hclub as [Hsame|Hfew]; [|lia].
      assert (countWhere (fun q => Player.team q = Player.team i)
                (filter (fun q => Player.id q <> Player.id o) (players s))
              < countWhere (fun q => Player.team q = Player.team i) (players s))%nat;
        [|lia].
      apply (countWhere_filter_lt _ _ _ o); [done|done|]. intros Hne. by apply Hne. }
  split; [exact Hmem|].
  rewrite canAddPlayer_valid. unfold rejects, overBudget.
  change (budget s') with (budget s). split.
  - intros Hok. destruct (Z.le_gt_cases (Player.now_cost i) (budget s)); [done|].
    exfalso. apply Hok. right. lia.
  - intros Hle [Hr|Hr]; [done|lia].
Qed.

Lemma suggestion_fits_store_witness :
  wellFormed MoreSamples.oneMidfielder /\
  scorePair Samples.squadMid Samples.poolMidA
    ∈ suggestions (players MoreSamples.oneMidfielder)
        [Samples.poolMidA; Samples.poolMidB] (budget MoreSamples.oneMidfielder) /\
  ~ membershipRejects (removePlayer MoreSamples.oneMidfielder 1) Samples.poolMidA.
Proof.
  assert (Hw : wellFormed MoreSamples.oneMidfielder) by apply wellFormed_execAll.
  assert (Hin : scorePair Samples.squadMid Samples.poolMidA
                ∈ suggestions (players MoreSamples.oneMidfielder)
                    [Samples.poolMidA; Samples.poolMidB]
                    (budget MoreSamples.oneMidfielder)).
  { vm_compute. apply list_elem_of_here. }
  split; [exact Hw|]. split; [exact Hin|].
  exact (proj1 (suggestion_fits_store MoreSamples.oneMidfielder
                  [Samples.poolMidA; Samples.poolMidB] _ Hw Hin)).
Defined.

Lemma gain_floor (o i : Player.t) :
  (formOf o <= formOf i)%Q -> (ppgOf o <= ppgOf i)%Q ->
  (52 # 10 <= gain (scorePair o i))%Q.
Proof.
  intros Hform Hppg.
  unfold gain, scorePair. cbv zeta. cbn [TransferSuggestion.expectedGain].
  fold (formOf i) (formOf o) (ppgOf i) (ppgOf o).
  set (b := (50 + (ppgOf i - ppgOf o) * 10)%Q).
  set (f := (50 + (formOf i - formOf o) * 20)%Q).
  assert (Hm : (40 <= (if bool_decide (Player.status i = StA) then 80 else 40) <= 80)%Q).
  { case_bool_decide; lra. }
  assert (Hb3 : (50 <= Qmin 100 (Qmax 0 b))%Q).
  { apply Q.min_glb; [lra|]. pose proof (Q.le_max_r 0 b).
    assert (50 <= b)%Q by (unfold b; lra). lra. }
  assert (Hf3 : (50 <= Qmin 100 (Qmax 0 f))%Q).
  { apply Q.min_glb; [lra|]. pose proof (Q.le_max_r 0 f).
    assert (50 <= f)%Q by (unfold f; lra). lra. }
  apply Qle_shift_div_l; lra.
Qed.

(** The expected gain of any scored pair lies between 2.2 and 9.  A
    replacement whose form and points per game are not below those of the
    outgoing player scores at least 5.2, so the test [expectedGain > 5] never
    drops it: when it is among the (first 100) candidates of a squad member,
    the pair is pushed on the results for that member, and it is in the
    returned list whenever at most 9 pairs were pushed in all.  (With more
    than 9 pushed pairs the truncation to 9 may drop it.) *)
Theorem gain_bounds (o i : Player.t) :
  (22 # 10 <= gain (scorePair o i) <= 9)%Q /\
  ((formOf o <= formOf i)%Q -> (ppgOf o <= ppgOf i)%Q ->
   (52 # 10 <= gain (scorePair o i))%Q /\
   (forall ids counts budget allPlayers,
      i ∈ take 100 (List.filter (isCandidate ids counts budget o) allPlayers) ->
      scorePair o i ∈ pushesFor ids counts budget allPlayers o) /\
   (forall teamPlayers allPlayers budget,
      o ∈ teamPlayers ->
      i ∈ take 100 (List.filter
                      (isCandidate (teamPlayerIds teamPlayers) (teamTeams teamPlayers)
                         budget o) allPlayers) ->
      (length (flat_map (pushesFor (teamPlayerIds teamPlayers) (teamTeams teamPlayers)
                           budget allPlayers) teamPlayers) <= 9)%nat ->
      scorePair o i ∈ suggestions teamPlayers allPlayers budget)).
Proof.
  split.
  - unfold gain, scorePair. cbv zeta. cbn [TransferSuggestion.expectedGain].
    fold (formOf i) (formOf o) (ppgOf i) (ppgOf o).
    set (b := (50 + (ppgOf i - ppgOf o) * 10)%Q).
    set (f := (50 + (formOf i - formOf o) * 20)%Q).
    assert (Hb : inRange 0 100 (Qmin 100 (Qmax 0 b))).
    { unfold inRange. rewrite min_max_clamp by lra. apply clamp_inRange. lra. }
    assert (Hf : inRange 0 100 (Qmin 100 (Qmax 0 f))).
    { unfold inRange. rewrite min_max_clamp by lra. apply clamp_inRange. lra. }
    destruct Hb as [Hb1 Hb2], Hf as [Hf1 Hf2].
    assert (Hm : (40 <= (if bool_decide (Player.status i = StA) then 80 else 40) <= 80)%Q).
    { case_bool_decide; lra. }
    split; apply Qle_shift_div_l || apply Qle_shift_div_r; lra.
  - intros Hform Hppg. pose proof (gain_floor o i Hform Hppg) as Hfloor.
    assert (Hpush : forall ids counts budget allPlayers,
              i ∈ take 100 (List.filter (isCandidate ids counts budget o) allPlayers) ->
              scorePair o i ∈ pushesFor ids counts budget allPlayers o).
    { intros ids counts budget allPlayers Hi. unfold pushesFor. cbv zeta.
      apply list_elem_of_In, filter_In. split.
      - apply in_map, list_elem_of_In, Hi.
      - apply Qltb_lt. fold (gain (scorePair o i)). lra. }
    split; [exact Hfloor|]. split; [exact Hpush|].
    intros teamPlayers allPlayers budget Ho Hi Hlen.
    unfold suggestions. cbv zeta.
    rewrite take_ge by (by rewrite sort_length).
    apply sort_elem, list_elem_of_In, in_flat_map.
    exists o. split; [by apply list_elem_of_In|]. by apply list_elem_of_In, Hpush.
Qed.

Lemma gain_bounds_witness :
  (formOf Samples.squadMid <= formOf Samples.poolMidA)%Q /\
  (ppgOf Samples.squadMid <= ppgOf Samples.poolMidA)%Q /\
  Samples.squadMid ∈ [Samples.squadMid] /\
  Samples.poolMidA
    ∈ take 100 (List.filter
                  (isCandidate (teamPlayerIds [Samples.squadMid])
                     (teamTeams [Samples.squadMid]) 0 Samples.squadMid)
                  [Samples.poolMidA; Samples.poolMidB]) /\
  (length (flat_map (pushesFor (teamPlayerIds [Samples.squadMid])
                       (teamTeams [Samples.squadMid]) 0
                       [Samples.poolMidA; Samples.poolMidB]) [Samples.squadMid])
   <= 9)%nat /\
  scorePair Samples.squadMid Samples.poolMidA
    ∈ suggestions [Samples.squadMid] [Samples.poolMidA; Samples.poolMidB] 0.
Proof.
  assert (Hf : (formOf Samples.squadMid <= formOf Samples.poolMidA)%Q)
    by (vm_compute; discriminate).
  assert (Hp : (ppgOf Samples.squadMid <= ppgOf Samples.poolMidA)%Q)
    by (vm_compute; discriminate).
  assert (Ho : Samples.squadMid ∈ [Samples.squadMid]) by apply list_elem_of_here.
  assert (Hi : Samples.poolMidA
               ∈ take 100 (List.filter
                             (isCandidate (teamPlayerIds [Samples.squadMid])
                                (teamTeams [Samples.squadMid]) 0 Samples.squadMid)
                             [Samples.poolMidA; Samples.poolMidB])).
  { vm_compute. apply list_elem_of_here. }
  assert (Hl : (length (flat_map (pushesFor (teamPlayerIds [Samples.squadMid])
                                    (teamTeams [Samples.squadMid]) 0
                                    [Samples.poolMidA; Samples.poolMidB])
                          [Samples.squadMid]) <= 9)%nat).
  { vm_compute. lia. }
  split; [exact Hf|]. split; [exact Hp|]. split; [exact Ho|].
  split; [exact Hi|]. split; [exact Hl|].
  destruct (proj2 (gain_bounds Samples.squadMid Samples.poolMidA) Hf Hp)
    as (_ & _ & Hin).
  exact (Hin [Samples.squadMid] [Samples.poolMidA; Samples.poolMidB] 0 Ho Hi Hl).
Defined.

End CandidateFacts.

(** ** Display helpers and formations: properties *)

Module UtilsTextFacts.

Import UtilsText.

Lemma digit_of_char (r : N) :
  (r < 10)%N -> JS.digit_of (pretty_N_char r) = Some (Z.of_N r).
Proof.
  intros Hr.
  assert (r = 0 \/ r = 1 \/ r = 2 \/ r = 3 \/ r = 4 \/ r = 5 \/ r = 6 \/ r = 7
          \/ r = 8 \/ r = 9)%N as Hcases by lia.
  repeat (destruct Hcases as [->|Hcases]; [reflexivity|]). by subst.
Qed.

(** Reading back the digits that [pretty_N_go] writes in front of [s]. *)
Lemma read_go (x : N) :
  forall s acc k, exists d,
    JS.read_digits (pretty_N_go x s) acc k
    = JS.read_digits s (acc * 10 ^ Z.of_nat d + Z.of_N x)%Z (k + d)%nat.
Proof.
  induction (N.lt_wf_0 x) as [x _ IH]. intros s acc k.
  destruct (N.eq_dec x 0%N) as [->|Hx].
  { exists 0%nat. rewrite pretty_N_go_0. f_equal; [simpl; lia|lia]. }
  rewrite pretty_N_go_step by lia.
  destruct (IH (x `div` 10)%N ltac:(apply N.div_lt; lia)
              (String (pretty_N_char (x `mod` 10)) s) acc k) as [d Hd].
  exists (S d). rewrite Hd. cbn [JS.read_digits].
  rewrite digit_of_char by (apply N.mod_lt; lia).
  f_equal; [|lia].
  rewrite Nat2Z.inj_succ, Z.pow_succ_r by lia.
  pose proof (N.div_mod x 10%N ltac:(lia)) as Hdm.
  assert (Z.of_N x = 10 * Z.of_N (x `div` 10) + Z.of_N (x `mod` 10))%Z by lia.
  lia.
Qed.

Lemma append_cons (a : string) (c : ascii) (s : string) :
  (a +:+ String c "") +:+ s = a +:+ String c s.
Proof.
  induction a as [|c' a IH]; [reflexivity|].
  change (String c' ((a +:+ String c "") +:+ s) = String c' (a +:+ String c s)).
  by rewrite IH.
Qed.

Lemma append_assoc (a b c : string) : (a +:+ b) +:+ c = a +:+ b +:+ c.
Proof.
  induction a as [|x a IH]; [reflexivity|].
  change (String x ((a +:+ b) +:+ c) = String x (a +:+ b +:+ c)). by rewrite IH.
Qed.

Lemma go_append (x : N) : forall s, pretty_N_go x s = pretty_N_go x "" +:+ s.
Proof.
  induction (N.lt_wf_0 x) as [x _ IH]. intros s.
  destruct (N.eq_dec x 0%N) as [->|Hx]; [by rewrite !pretty_N_go_0|].
  rewrite !(pretty_N_go_step x) by lia.
  rewrite (IH (x `div` 10)%N ltac:(apply N.div_lt; lia) (String _ s)).
  rewrite (IH (x `div` 10)%N ltac:(apply N.div_lt; lia) (String _ "")).
  by rewrite append_cons.
Qed.

(** Reading back a printed natural number that is followed by [s]. *)
Lemma read_pretty (a : N) (s : string) :
  exists d, JS.read_digits (pretty a +:+ s) 0%Z 0%nat
            = JS.read_digits s (Z.of_N a) d.
Proof.
  unfold pretty, pretty_N. case_decide as Ha.
  - subst a. exists 1%nat. reflexivity.
  - rewrite <- go_append. destruct (read_go a s 0%Z 0%nat) as [d Hd].
    exists d. rewrite Hd. by rewrite Z.mul_0_l, Z.add_0_l, Nat.add_0_l.
Qed.

(** A printed natural number starts with a digit. *)
Lemma pretty_head (a : N) :
  exists c r v, pretty a = String c r /\ JS.digit_of c = Some v.
Proof.
  unfold pretty, pretty_N. case_decide as Ha; [by exists "0"%char, "", 0%Z|].
  assert (Hgo : forall x, x <> 0%N -> forall s,
            exists c r v, pretty_N_go x s = String c r /\ JS.digit_of c = Some v).
  { clear. intros x. induction (N.lt_wf_0 x) as [x _ IH]. intros Hx s.
    rewrite pretty_N_go_step by lia.
    destruct (N.eq_dec (x `div` 10)%N 0%N) as [E|E].
    - rewrite E, pretty_N_go_0. eexists _, _, _. split; [done|].
      apply digit_of_char, N.mod_lt. lia.
    - apply IH; [apply N.div_lt; lia|done]. }
  by apply Hgo.
Qed.

Lemma digit_is_plain (c : ascii) (v : Z) (r : string) :
  JS.digit_of c = Some v ->
  JS.skip_spaces (String c r) = String c r /\
  JS.read_sign (String c r) = (1%Z, String c r) /\
  (forall acc k, JS.read_digits (String c r) acc k
                 = JS.read_digits r (10 * acc + v)%Z (S k)).
Proof.
  intros Hd. split; [|split].
  - destruct c as [[] [] [] [] [] [] [] []]; try discriminate; reflexivity.
  - destruct c as [[] [] [] [] [] [] [] []]; try discriminate; reflexivity.
  - intros acc k. simpl. by rewrite Hd.
Qed.

(** [parseFloat] of a text whose part after the sign has the shape digits,
    point, one digit, followed by something that is no digit and no exponent. *)
Lemma parse_body (s : string) (sg : Z) (a b : N) (tail : string) :
  (b < 10)%N ->
  JS.read_digits tail (Z.of_N b) 1%nat = (Z.of_N b, 1%nat, tail) ->
  JS.read_exponent tail = 0%Z ->
  JS.read_sign (JS.skip_spaces s) = (sg, pretty a +:+ "." +:+ pretty b +:+ tail) ->
  exists q, JS.parseFloat s = Some q /\
            (q == inject_Z sg * (inject_Z (Z.of_N a) + inject_Z (Z.of_N b) / 10))%Q.
Proof.
  intros Hb Htail Hexp Hsign.
  destruct (read_pretty a ("." +:+ pretty b +:+ tail)) as [d Hd].
  assert (Hb' : pretty b +:+ tail = String (pretty_N_char b) tail).
  { assert (b = 0 \/ b = 1 \/ b = 2 \/ b = 3 \/ b = 4 \/ b = 5 \/ b = 6 \/ b = 7
            \/ b = 8 \/ b = 9)%N as Hcases by lia.
    repeat (destruct Hcases as [->|Hcases]; [reflexivity|]). by subst. }
  unfold JS.parseFloat. rewrite Hsign, Hd.
  change ("." +:+ pretty b +:+ tail) with (String "." (pretty b +:+ tail)).
  cbn [JS.read_digits]. change (JS.digit_of ".") with (@None Z). cbv iota.
  rewrite Hb'. cbn [JS.read_digits]. rewrite digit_of_char by done.
  replace (10 * 0 + Z.of_N b)%Z with (Z.of_N b) by lia. rewrite Htail.
  replace (d + 1)%nat with (S d) by lia. rewrite Hexp.
  eexists. split; [reflexivity|].
  change (Z.of_nat 1) with 1%Z. change (10 ^ 1)%Z with 10%Z.
  change (inject_Z 10) with 10%Q. simpl Qpower. ring.
Qed.

Lemma sign_of_body (a : N) (rest : string) :
  JS.read_sign (JS.skip_spaces (pretty a +:+ rest)) = (1%Z, pretty a +:+ rest) /\
  JS.read_sign (JS.skip_spaces ("-" +:+ pretty a +:+ rest)) = ((-1)%Z, pretty a +:+ rest).
Proof.
  split; [|reflexivity].
  destruct (pretty_head a) as (c & r & v & Hc & Hv).
  destruct (digit_is_plain c v (r +:+ rest) Hv) as (Hsp & Hsg & _).
  rewrite Hc. change (String c r +:+ rest) with (String c (r +:+ rest)).
  by rewrite Hsp, Hsg.
Qed.

Lemma floor_half (z : Z) (x : Q) :
  (x == inject_Z z)%Q -> Qfloor (x + (1 # 2)) = z.
Proof.
  intros Hx. rewrite (Qfloor_comp _ (inject_Z z + (1 # 2))) by (by rewrite Hx).
  apply RankingFacts.round_integer.
Qed.

(** The text that [toFixed1] writes for a price in tenths. *)
Lemma toFixed1_tenths (price : Z) :
  toFixed1 (inject_Z price / 10)
  = (if (price <? 0)%Z then "-" else "")
    +:+ pretty (Z.to_N (Z.abs price) / 10)%N +:+ "."
    +:+ pretty (Z.to_N (Z.abs price) mod 10)%N.
Proof.
  unfold toFixed1. cbv zeta.
  assert (Hneg : JS.Qltb (inject_Z price / 10) 0 = (price <? 0)%Z).
  { unfold JS.Qltb, Qle_bool. simpl.
    destruct (Z.leb_spec 0 (price * 1 * 1)), (Z.ltb_spec price 0); simpl; try done; lia. }
  rewrite Hneg.
  destruct (Z.ltb_spec price 0) as [Hlt|Hge].
  - rewrite (floor_half (Z.abs price)); [done|].
    rewrite Z.abs_neq by lia. rewrite inject_Z_opp. field.
  - rewrite (floor_half (Z.abs price)); [done|].
    rewrite Z.abs_eq by lia. field.
Qed.

(** What [formatPrice] prints can be read back.  The text is a pound sign,
    the number, and "m"; [parseFloat] of the part after the pound sign gives
    exactly a tenth of the price (the trailing "m" does no harm), for every
    integer price, negative ones included; [parseFloat] of the whole text is
    not a number, because of the pound sign. *)
Theorem formatPrice_round_trip (price : Z) :
  exists text,
    formatPrice price = "£" +:+ text +:+ "m" /\
    JS.parseFloat (formatPrice price) = None /\
    exists q, JS.parseFloat (text +:+ "m") = Some q /\ (q * 10 == inject_Z price)%Q.
Proof.
  exists (toFixed1 (inject_Z price / 10)). split; [done|]. split; [done|].
  rewrite toFixed1_tenths.
  set (n := Z.to_N (Z.abs price)).
  assert (Hb : (n mod 10 < 10)%N) by (apply N.mod_lt; lia).
  assert (Hn : (Z.of_N n = 10 * Z.of_N (n / 10) + Z.of_N (n mod 10))%Z).
  { pose proof (N.div_mod n 10%N ltac:(lia)). lia. }
  destruct (sign_of_body (n / 10)%N ("." +:+ pretty (n mod 10)%N +:+ "m"))
    as [Hpos Hneg].
  assert (Happ : forall pre : string,
            (pre +:+ pretty (n / 10)%N +:+ "." +:+ pretty (n mod 10)%N) +:+ "m"
            = pre +:+ pretty (n / 10)%N +:+ "." +:+ pretty (n mod 10)%N +:+ "m").
  { intros pre. by rewrite !append_assoc. }
  rewrite Happ.
  destruct (Z.ltb_spec price 0) as [Hlt|Hge].
  - destruct (parse_body ("-" +:+ pretty (n / 10)%N +:+ "." +:+ pretty (n mod 10)%N +:+ "m")
                (-1) (n / 10)%N (n mod 10)%N "m" Hb eq_refl eq_refl Hneg)
      as (q & Hq & Hval).
    exists q. split; [exact Hq|]. rewrite Hval.
    assert (Hp : price = (- Z.of_N n)%Z) by (unfold n; lia).
    rewrite Hp, Hn, inject_Z_opp, inject_Z_plus, inject_Z_mult.
    change (inject_Z (-1)) with (-1)%Q. change (inject_Z 10) with 10%Q. field.
  - destruct (parse_body ("" +:+ pretty (n / 10)%N +:+ "." +:+ pretty (n mod 10)%N +:+ "m")
                1 (n / 10)%N (n mod 10)%N "m" Hb eq_refl eq_refl Hpos)
      as (q & Hq & Hval).
    exists q. split; [exact Hq|]. rewrite Hval.
    assert (Hp : price = Z.of_N n) by (unfold n; lia).
    rewrite Hp, Hn, inject_Z_plus, inject_Z_mult.
    change (inject_Z 1) with 1%Q. change (inject_Z 10) with 10%Q. field.
Qed.

(** Every formation names 3 to 5 defenders, 3 to 5 midfielders and 1 to 3
    forwards, ten outfield players in all, beside one goalkeeper. *)
Lemma formation_structure (f : Formation) :
  exists d m w : Z,
    parseFormation f
    = FormationStructure.mk 1 (Some (inject_Z d)) (Some (inject_Z m)) (Some (inject_Z w)) /\
    (3 <= d <= 5 /\ 3 <= m <= 5 /\ 1 <= w <= 3 /\ d + m + w = 10)%Z.
Proof.
  destruct f; vm_compute.
  - exists 3%Z, 4%Z, 3%Z. repeat split; discriminate.
  - exists 3%Z, 5%Z, 2%Z. repeat split; discriminate.
  - exists 4%Z, 3%Z, 3%Z. repeat split; discriminate.
  - exists 4%Z, 4%Z, 2%Z. repeat split; discriminate.
  - exists 4%Z, 5%Z, 1%Z. repeat split; discriminate.
  - exists 5%Z, 3%Z, 2%Z. repeat split; discriminate.
  - exists 5%Z, 4%Z, 1%Z. repeat split; discriminate.
Qed.

(** A complete squad can line up in every formation: when [isTeamComplete]
    holds, [isValidFormation] holds for each of the seven formations, each of
    which fields one goalkeeper and ten outfield players. *)
Theorem complete_squad_fits_formations (players : list Player.t) (f : Formation) :
  Utils.isTeamComplete players = true ->
  isValidFormation f players = true /\
  exists d m w : Z,
    parseFormation f
    = FormationStructure.mk 1 (Some (inject_Z d)) (Some (inject_Z m)) (Some (inject_Z w)) /\
    (d + m + w = 10)%Z.
Proof.
  intros Hc. destruct (formation_structure f) as (d & m & w & Hf & Hd & Hm & Hw & Hsum).
  split; [|by exists d, m, w].
  unfold Utils.isTeamComplete in Hc.
  destruct (negb _); [done|]. cbv zeta in Hc.
  apply andb_true_iff in Hc as [Hc H4]. apply andb_true_iff in Hc as [Hc H3].
  apply andb_true_iff in Hc as [H1 H2].
  apply Z.eqb_eq in H1, H2, H3, H4.
  unfold isValidFormation. cbv zeta. rewrite Hf, H1, H2, H3, H4.
  cbn [FormationStructure.gk FormationStructure.def FormationStructure.mid
       FormationStructure.fwd ge_number].
  rewrite !andb_true_iff. repeat split.
  - apply Qle_bool_iff. rewrite <- Zle_Qle. lia.
  - apply Qle_bool_iff. rewrite <- Zle_Qle. lia.
  - apply Qle_bool_iff. rewrite <- Zle_Qle. lia.
Qed.

Lemma complete_squad_fits_formations_witness :
  Utils.isTeamComplete MoreSamples.fullSquad = true /\
  isValidFormation F541 MoreSamples.fullSquad = true.
Proof.
  assert (Hc : Utils.isTeamComplete MoreSamples.fullSquad = true) by reflexivity.
  split; [exact Hc|].
  exact (proj1 (complete_squad_fits_formations MoreSamples.fullSquad F541 Hc)).
Defined.

End UtilsTextFacts.
